(** * Configuration loader of the lightspeed service ([utils/config.py])

    A shallow embedding of the configuration classes ([ModelConfig],
    [ProviderConfig], [LLMConfig], [RedisConfig], [MemoryConfig],
    [ConversationCacheConfig], [LoggerConfig], [OLSConfig], [Config]), of
    [Config.validate] and of [load_config], followed by the properties of the
    loader.

    Conventions of the embedding.
    - A parsed YAML document is a value of [yaml]; Python's [None] is
      [YNull].  The scalars are those the schema of the configuration file
      names: strings, integers, booleans and null.  A mapping lists its
      keys, which are strings, in the order of the document, each key once;
      [assoc] reads the first binding of a key.
    - Python exceptions are values of [error]; a computation that may raise
      returns a [result].
    - The two dictionaries the constructors fill by item assignment
      ([ProviderConfig.models] and [LLMConfig.providers]) are objects of a
      store, and the instances hold references to them.  The class-level
      defaults ([models: Dict[..] = {}], [providers: Dict[..] = {}]) are
      objects of the same store, at reference [0].
    - [pydantic.BaseModel.__init__], called with no field values, gives every
      field its declared default, and gives a *copy* of it when the default
      is a mutable collection.  This is the behaviour of the pydantic
      library, which is not part of the repository; it is written out in
      [BaseModel_init_models] and [BaseModel_init_providers]. *)

From Stdlib Require Import ZArith String Ascii List Bool.
From stdpp Require Import base list.
Import ListNotations.
Local Open Scope string_scope.
Local Open Scope list_scope.

(** ** Parsed documents *)

#[local] Set Warnings "-register-all".

Inductive yaml : Type :=
| YNull
| YBool (b : bool)
| YInt (z : Z)
| YStr (s : string)
| YList (items : list yaml)
| YMap (kvs : list (string * yaml)).

Definition is_None (v : yaml) : bool :=
  match v with YNull => true | _ => false end.

(** ** Exceptions *)

(** [Exception msg arg] is [Exception(f"{msg}{arg}")]: the fixed text of the
    message and, for the formatted messages, the value that is interpolated
    at its end. *)
Inductive error : Type :=
| Exception (msg : string) (arg : option yaml)
| TypeError (msg : string)
| AttributeError (attr : string)
| KeyError (key : string)
| OSError (msg : string)
| YAMLError (msg : string).

Inductive result (A : Type) : Type :=
| Ok (a : A)
| Raise (e : error).
Arguments Ok {A} a.
Arguments Raise {A} e.

Definition result_bind {A B} (r : result A) (k : A -> result B) : result B :=
  match r with Ok a => k a | Raise e => Raise e end.

Notation "'let?' x ':=' c 'in' k" := (result_bind c (fun x => k))
  (at level 10, x name, c at level 200, k at level 200, only parsing).

(** ** The Python operations the module uses on parsed values *)

Fixpoint assoc (k : string) (kvs : list (string * yaml)) : option yaml :=
  match kvs with
  | [] => None
  | (k', v) :: rest => if String.eqb k' k then Some v else assoc k rest
  end.

(** [data.get(k, dflt)].  Only mappings have a [get] method. *)
Definition py_get (data : yaml) (k : string) (dflt : yaml) : result yaml :=
  match data with
  | YMap kvs => Ok (default dflt (assoc k kvs))
  | _ => Raise (AttributeError "get")
  end.

(** [data[k]] for a string [k]. *)
Definition py_getitem (data : yaml) (k : string) : result yaml :=
  match data with
  | YMap kvs =>
      match assoc k kvs with
      | Some v => Ok v
      | None => Raise (KeyError k)
      end
  | YList _ => Raise (TypeError "list indices must be integers or slices, not str")
  | YStr _ => Raise (TypeError "string indices must be integers")
  | YNull => Raise (TypeError "'NoneType' object is not subscriptable")
  | YBool _ => Raise (TypeError "'bool' object is not subscriptable")
  | YInt _ => Raise (TypeError "'int' object is not subscriptable")
  end.

(** [len(data)]. *)
Definition py_len (data : yaml) : result nat :=
  match data with
  | YList items => Ok (length items)
  | YMap kvs => Ok (length kvs)
  | YStr s => Ok (String.length s)
  | _ => Raise (TypeError "object has no len()")
  end.

(** The values [for x in data] runs through: the items of a list, the keys
    of a mapping, the characters of a string. *)
Definition py_iter (data : yaml) : result (list yaml) :=
  match data with
  | YList items => Ok items
  | YMap kvs => Ok (map (fun kv => YStr (fst kv)) kvs)
  | YStr s => Ok (map (fun c => YStr (String c EmptyString)) (list_ascii_of_string s))
  | _ => Raise (TypeError "object is not iterable")
  end.

(** ** Dictionaries built by item assignment *)

Definition hashable (k : yaml) : bool :=
  match k with YList _ | YMap _ => false | _ => true end.

(** Python's [==] on hashable values ([True == 1] and [False == 0]). *)
Definition key_eqb (a b : yaml) : bool :=
  match a, b with
  | YNull, YNull => true
  | YStr s, YStr t => String.eqb s t
  | YBool x, YBool y => Bool.eqb x y
  | YInt x, YInt y => Z.eqb x y
  | YBool x, YInt y => Z.eqb (Z.b2z x) y
  | YInt x, YBool y => Z.eqb x (Z.b2z y)
  | _, _ => false
  end.

(** A dictionary in insertion order. *)
Abbreviation dict V := (list (yaml * V)) (only parsing).

(** [d[k] = v]: an existing key keeps its place and gets the new value, a
    new key goes to the end. *)
Fixpoint dict_setitem {V} (k : yaml) (v : V) (d : dict V) : dict V :=
  match d with
  | [] => [(k, v)]
  | (k', v') :: rest =>
      if key_eqb k' k then (k', v) :: rest
      else (k', v') :: dict_setitem k v rest
  end.

Fixpoint dict_lookup {V} (k : yaml) (d : dict V) : option V :=
  match d with
  | [] => None
  | (k', v) :: rest => if key_eqb k' k then Some v else dict_lookup k rest
  end.

Definition dict_keys {V} (d : dict V) : list yaml := map fst d.

(** ** The configuration classes *)

Definition loc : Type := nat.

Record ModelConfig : Type := mkModelConfig {
  m_name : yaml;
  m_url : yaml;
  m_credential_path : yaml }.

Record ProviderConfig : Type := mkProviderConfig {
  p_name : yaml;
  p_url : yaml;
  p_credential_path : yaml;
  p_models : loc }.

Record LLMConfig : Type := mkLLMConfig {
  llm_providers : loc }.

Record RedisConfig : Type := mkRedisConfig {
  r_host : yaml;
  r_port : yaml;
  r_max_memory : yaml;
  r_max_memory_policy : yaml }.

Record MemoryConfig : Type := mkMemoryConfig {
  mem_max_entries : yaml }.

Record ConversationCacheConfig : Type := mkConversationCacheConfig {
  cc_type : yaml;
  cc_redis : option RedisConfig;
  cc_memory : option MemoryConfig }.

Record LoggerConfig : Type := mkLoggerConfig {
  lg_level : yaml;
  lg_filename : yaml }.

Record OLSConfig : Type := mkOLSConfig {
  ols_enable_debug_ui : yaml;
  ols_default_model : yaml;
  ols_classifier_model : yaml;
  ols_conversation_cache : option ConversationCacheConfig;
  ols_logger_config : option LoggerConfig }.

Record Config : Type := mkConfig {
  llm_config : option LLMConfig;
  ols_config : option OLSConfig }.

(** ** The store of dictionaries and the monad of the constructors *)

Record heap : Type := mkHeap {
  models_store : list (dict ModelConfig);
  providers_store : list (dict ProviderConfig) }.

(** The class attributes [ProviderConfig.models] and [LLMConfig.providers]. *)
Definition ProviderConfig_models : loc := 0.
Definition LLMConfig_providers : loc := 0.

(** The store once the module is imported: the two class-level [{}]. *)
Definition heap0 : heap := mkHeap [ [] ] [ [] ].

Definition M (A : Type) : Type := heap -> result A * heap.

Definition ret {A} (a : A) : M A := fun h => (Ok a, h).
Definition raise {A} (e : error) : M A := fun h => (Raise e, h).
Definition lift {A} (r : result A) : M A := fun h => (r, h).
Definition bind {A B} (c : M A) (k : A -> M B) : M B :=
  fun h => match c h with
           | (Ok a, h') => k a h'
           | (Raise e, h') => (Raise e, h')
           end.

Notation "'let!' x ':=' c 'in' k" := (bind c (fun x => k))
  (at level 10, x name, c at level 200, k at level 200, only parsing).
Notation "'do!' c 'in' k" := (bind c (fun _ => k))
  (at level 10, c at level 200, k at level 200, only parsing).

(** [for x in xs: body(x)] *)
Fixpoint for_each {A} (xs : list A) (body : A -> M unit) : M unit :=
  match xs with
  | [] => ret tt
  | x :: rest => do! body x in for_each rest body
  end.

(** [super().__init__()] in [ProviderConfig]: the new instance's [models] is
    a new dictionary, a copy of the class default. *)
Definition BaseModel_init_models : M loc := fun h =>
  let d := default [] (models_store h !! ProviderConfig_models) in
  (Ok (length (models_store h)),
   mkHeap (models_store h ++ [d]) (providers_store h)).

(** [super().__init__()] in [LLMConfig]. *)
Definition BaseModel_init_providers : M loc := fun h =>
  let d := default [] (providers_store h !! LLMConfig_providers) in
  (Ok (length (providers_store h)),
   mkHeap (models_store h) (providers_store h ++ [d])).

(** [self.models[k] = v], where [self.models] is the dictionary at [l]. *)
Definition models_setitem (l : loc) (k : yaml) (v : ModelConfig) : M unit :=
  fun h =>
    if hashable k
    then (Ok tt, mkHeap (alter (dict_setitem k v) l (models_store h))
                        (providers_store h))
    else (Raise (TypeError "unhashable type"), h).

(** [self.providers[k] = v]. *)
Definition providers_setitem (l : loc) (k : yaml) (v : ProviderConfig) : M unit :=
  fun h =>
    if hashable k
    then (Ok tt, mkHeap (models_store h)
                        (alter (dict_setitem k v) l (providers_store h)))
    else (Raise (TypeError "unhashable type"), h).

(** ** The constructors *)

(** [ModelConfig.__init__].  When [data] is [None] the message of the
    exception is formatted first, and formatting it evaluates
    [data['name']]. *)
Definition ModelConfig_init (data : yaml) : result ModelConfig :=
  (if is_None data then
     (let? arg := py_getitem data "name" in
      Raise (Exception "model config is missing for model " (Some arg)))
   else
     (let? name := py_get data "name" YNull in
      let? url := py_get data "url" YNull in
      let? credential_path := py_get data "credential_path" YNull in
      Ok (mkModelConfig name url credential_path))).

(** The body of [for m in data["models"]] for the instance whose [models]
    is at [self_models]. *)
Definition ProviderConfig_models_body (self_models : loc) (m : yaml) : M unit :=
  let! name := lift (py_get m "name" YNull) in
  if is_None name then raise (Exception "model name is missing" None)
  else
    let! model := lift (ModelConfig_init m) in
    let! key := lift (py_getitem m "name") in
    models_setitem self_models key model.

(** The test [data.get("models",None) is None or len(data["models"]) == 0]. *)
Definition ProviderConfig_no_models (data : yaml) : result bool :=
  (let? ms := py_get data "models" YNull in
   if is_None ms then Ok true
   else
     let? ms' := py_getitem data "models" in
     let? n := py_len ms' in
     Ok (Nat.eqb n 0)).

(** [ProviderConfig.__init__] *)
Definition ProviderConfig_init (data : yaml) : M ProviderConfig :=
  let! self_models := BaseModel_init_models in
  if is_None data then ret (mkProviderConfig YNull YNull YNull self_models)
  else
    let! name := lift (py_get data "name" YNull) in
    let! url := lift (py_get data "url" YNull) in
    let! credential_path := lift (py_get data "credential_path" YNull) in
    let! no_models := lift (ProviderConfig_no_models data) in
    if (no_models : bool) then
      let! arg := lift (py_getitem data "name") in
      raise (Exception "no models configured for provider " (Some arg))
    else
      let! ms := lift (py_getitem data "models") in
      let! items := lift (py_iter ms) in
      do! for_each items (ProviderConfig_models_body self_models) in
      ret (mkProviderConfig name url credential_path self_models).

(** The body of [for p in data] in [LLMConfig.__init__]. *)
Definition LLMConfig_providers_body (self_providers : loc) (p : yaml) : M unit :=
  let! name := lift (py_get p "name" YNull) in
  if is_None name then raise (Exception "provider name is missing" None)
  else
    let! provider := ProviderConfig_init p in
    let! key := lift (py_getitem p "name") in
    providers_setitem self_providers key provider.

(** The test [data is None or len(data) == 0]. *)
Definition LLMConfig_no_providers (data : yaml) : result bool :=
  (if is_None data then Ok true
   else let? n := py_len data in Ok (Nat.eqb n 0)).

(** [LLMConfig.__init__] *)
Definition LLMConfig_init (data : yaml) : M LLMConfig :=
  let! self_providers := BaseModel_init_providers in
  let! no_providers := lift (LLMConfig_no_providers data) in
  if (no_providers : bool) then
    raise (Exception "no llm providers configured" None)
  else
    let! items := lift (py_iter data) in
    do! for_each items (LLMConfig_providers_body self_providers) in
    ret (mkLLMConfig self_providers).

(** [RedisConfig.__init__] *)
Definition RedisConfig_init (data : yaml) : result RedisConfig :=
  (if is_None data then Ok (mkRedisConfig YNull YNull YNull YNull)
   else
     let? host := py_get data "host" YNull in
     let? port := py_get data "port" YNull in
     let? max_memory := py_get data "max_memory" YNull in
     let? max_memory_policy := py_get data "max_memory_policy" YNull in
     Ok (mkRedisConfig host port max_memory max_memory_policy)).

(** [MemoryConfig.__init__] *)
Definition MemoryConfig_init (data : yaml) : result MemoryConfig :=
  (if is_None data then Ok (mkMemoryConfig YNull)
   else
     let? max_entries := py_get data "max_entries" YNull in
     Ok (mkMemoryConfig max_entries)).

(** [v == s] for a string literal [s]. *)
Definition eq_str (v : yaml) (s : string) : bool :=
  match v with YStr t => String.eqb t s | _ => false end.

(** [ConversationCacheConfig.__init__] *)
Definition ConversationCacheConfig_init (data : yaml)
  : result ConversationCacheConfig :=
  (if is_None data then Ok (mkConversationCacheConfig YNull None None)
   else
     let? type := py_get data "type" YNull in
     if eq_str type "redis" then
       let? redis := py_get data "redis" YNull in
       if is_None redis then Raise (Exception "redis config is missing" None)
       else
         let? redis' := py_get data "redis" YNull in
         let? r := RedisConfig_init redis' in
         Ok (mkConversationCacheConfig type (Some r) None)
     else if eq_str type "memory" then
       let? memory := py_get data "memory" YNull in
       if is_None memory then Raise (Exception "memory config is missing" None)
       else
         let? memory' := py_get data "memory" YNull in
         let? m := MemoryConfig_init memory' in
         Ok (mkConversationCacheConfig type None (Some m))
     else Ok (mkConversationCacheConfig type None None)).

(** [LoggerConfig.__init__] *)
Definition LoggerConfig_init (data : yaml) : result LoggerConfig :=
  (if is_None data then Ok (mkLoggerConfig YNull YNull)
   else
     let? level := py_get data "level" YNull in
     let? filename := py_get data "filename" YNull in
     Ok (mkLoggerConfig level filename)).

(** [OLSConfig.__init__].  The fields it does not assign keep their class
    defaults: [enable_debug_ui = False], the others [None]. *)
Definition OLSConfig_init (data : yaml) : result OLSConfig :=
  (if is_None data then Ok (mkOLSConfig (YBool false) YNull YNull None None)
   else
     let? default_model := py_get data "default_model" YNull in
     let? enable_debug_ui := py_get data "enable_debug_ui" (YBool false) in
     let? cc_data := py_get data "conversation_cache" YNull in
     let? conversation_cache := ConversationCacheConfig_init cc_data in
     let? lg_data := py_get data "logger_config" YNull in
     let? logger_config := LoggerConfig_init lg_data in
     Ok (mkOLSConfig enable_debug_ui default_model YNull
                     (Some conversation_cache) (Some logger_config))).

(** [Config.__init__] *)
Definition Config_init (data : yaml) : M Config :=
  if is_None data then ret (mkConfig None None)
  else
    let! llm_data := lift (py_get data "llm_providers" YNull) in
    let! llm := LLMConfig_init llm_data in
    let! ols_data := lift (py_get data "ols_config" YNull) in
    let! ols := lift (OLSConfig_init ols_data) in
    ret (mkConfig (Some llm) (Some ols)).

(** [len(self.llm_config.providers)] in the store [h]. *)
Definition providers_len (h : heap) (llm : LLMConfig) : nat :=
  length (default [] (providers_store h !! llm_providers llm)).

(** [Config.validate] *)
Definition validate (self : Config) (h : heap) : result unit :=
  match llm_config self with
  | None => Raise (Exception "no llm config found" None)
  | Some llm =>
      if Nat.eqb (providers_len h llm) 0
      then Raise (Exception "no llm providers found" None)
      else
        match ols_config self with
        | None => Raise (Exception "no ols config found" None)
        | Some ols =>
            if is_None (ols_default_model ols)
            then Raise (Exception "default model is not set" None)
            else if is_None (ols_classifier_model ols)
            then Raise (Exception "classifier model is not set" None)
            else
              match ols_conversation_cache ols with
              | None => Raise (Exception "conversation cache is not set" None)
              | Some _ =>
                  match ols_logger_config ols with
                  | None => Raise (Exception "logger config is not set" None)
                  | Some _ => Ok tt
                  end
              end
        end
  end.

(** ** [load_config] *)

(** What [load_config] does with its argument: it opens it and parses the
    file ([open(config_file, "r")] then [yaml.safe_load(f)], both outside
    the repository), and, in the handler, reads its attribute [name].
    [src_name] is [None] for an object without that attribute, such as a
    path given as a [str]. *)
Record source : Type := mkSource {
  src_parse : result yaml;
  src_name : option string }.

(** A call of [print]. *)
Inductive output : Type :=
| print_failed (name : string) (e : error)
    (* print(f"Failed to load config file {name}: {str(e)}") *)
| print_traceback (e : error).
    (* print(traceback.format_exc()) *)

(** How a call of [load_config] ends. *)
Inductive outcome : Type :=
| Returned (c : Config)
| Exited (status : Z)
| Uncaught (e : error).

Definition load_config (config_file : source) (h : heap)
  : outcome * list output * heap :=
  match bind (lift (src_parse config_file)) Config_init h with
  | (Ok c, h') => (Returned c, [], h')
  | (Raise e, h') =>
      match src_name config_file with
      | Some name =>
          (Exited 1, [print_failed name e; print_traceback e], h')
      | None => (Uncaught (AttributeError "name"), [], h')
      end
  end.

(** ** What the constructors compute, independently of the store

    The loops of [ProviderConfig.__init__] and [LLMConfig.__init__] fill one
    dictionary by item assignment.  [dict_fill entry items d] is the state
    of that dictionary after the loop has run over [items], starting from
    [d], together with the way the loop ended; [entry x] is the key and the
    value the body assigns for the item [x], or the exception it raises. *)

Fixpoint dict_fill {V} (entry : yaml -> result (yaml * V))
    (items : list yaml) (d : dict V) : result unit * dict V :=
  match items with
  | [] => (Ok tt, d)
  | x :: rest =>
      match entry x with
      | Ok (k, v) => dict_fill entry rest (dict_setitem k v d)
      | Raise e => (Raise e, d)
      end
  end.

(** The item assignment of one pass of [for m in data["models"]]. *)
Definition model_entry (m : yaml) : result (yaml * ModelConfig) :=
  let? name := py_get m "name" YNull in
  if is_None name then Raise (Exception "model name is missing" None)
  else
    let? model := ModelConfig_init m in
    let? key := py_getitem m "name" in
    if hashable key then Ok (key, model)
    else Raise (TypeError "unhashable type").

(** The part of [ProviderConfig.__init__] between the test [data is None]
    and the loop: the three scalar fields and the items to loop over. *)
Definition ProviderConfig_head (data : yaml)
  : result (yaml * yaml * yaml * list yaml) :=
  let? name := py_get data "name" YNull in
  let? url := py_get data "url" YNull in
  let? credential_path := py_get data "credential_path" YNull in
  let? no_models := ProviderConfig_no_models data in
  if (no_models : bool) then
    let? arg := py_getitem data "name" in
    Raise (Exception "no models configured for provider " (Some arg))
  else
    let? ms := py_getitem data "models" in
    let? items := py_iter ms in
    Ok (name, url, credential_path, items).

(** A provider with its dictionary of models read from the store. *)
Record ProviderView : Type := mkProviderView {
  pv_name : yaml;
  pv_url : yaml;
  pv_credential_path : yaml;
  pv_models : dict ModelConfig }.

(** The instance [ProviderConfig(data)] builds when the class default of
    [models] holds [d0], and the state in which it leaves its [models]
    dictionary (also when it raises). *)
Definition ProviderConfig_denote (d0 : dict ModelConfig) (data : yaml)
  : result (yaml * yaml * yaml) * dict ModelConfig :=
  if is_None data then (Ok (YNull, YNull, YNull), d0)
  else
    match ProviderConfig_head data with
    | Raise e => (Raise e, d0)
    | Ok (name, url, credential_path, items) =>
        match dict_fill model_entry items d0 with
        | (Ok _, d) => (Ok (name, url, credential_path), d)
        | (Raise e, d) => (Raise e, d)
        end
    end.

Definition ProviderConfig_view (d0 : dict ModelConfig) (data : yaml)
  : result ProviderView :=
  match ProviderConfig_denote d0 data with
  | (Ok (name, url, credential_path), d) =>
      Ok (mkProviderView name url credential_path d)
  | (Raise e, _) => Raise e
  end.

(** The item assignment of one pass of [for p in data]. *)
Definition provider_entry (d0 : dict ModelConfig) (p : yaml)
  : result (yaml * ProviderView) :=
  let? name := py_get p "name" YNull in
  if is_None name then Raise (Exception "provider name is missing" None)
  else
    let? provider := ProviderConfig_view d0 p in
    let? key := py_getitem p "name" in
    if hashable key then Ok (key, provider)
    else Raise (TypeError "unhashable type").

(** [LLMConfig(data)]: how it ends and the state of its [providers]. *)
Definition LLMConfig_denote (d0 : dict ModelConfig) (pd0 : dict ProviderView)
    (data : yaml) : result unit * dict ProviderView :=
  match LLMConfig_no_providers data with
  | Raise e => (Raise e, pd0)
  | Ok true => (Raise (Exception "no llm providers configured" None), pd0)
  | Ok false =>
      match py_iter data with
      | Raise e => (Raise e, pd0)
      | Ok items => dict_fill (provider_entry d0) items pd0
      end
  end.

(** Reading instances from the store. *)
Definition provider_view (ms : list (dict ModelConfig)) (p : ProviderConfig)
  : ProviderView :=
  mkProviderView (p_name p) (p_url p) (p_credential_path p)
                 (default [] (ms !! p_models p)).

Definition providers_view (ms : list (dict ModelConfig))
    (pd : dict ProviderConfig) : dict ProviderView :=
  map (fun kv => (fst kv, provider_view ms (snd kv))) pd.

Record ConfigView : Type := mkConfigView {
  cv_providers : option (dict ProviderView);
  cv_ols_config : option OLSConfig }.

Definition config_view (h : heap) (c : Config) : ConfigView :=
  mkConfigView
    (option_map
       (fun llm => providers_view (models_store h)
                     (default [] (providers_store h !! llm_providers llm)))
       (llm_config c))
    (ols_config c).

(** The class-level defaults are the empty dictionaries they were defined
    as. *)
Definition cls_ok (h : heap) : Prop :=
  models_store h !! ProviderConfig_models = Some [] /\
  providers_store h !! LLMConfig_providers = Some [].

(** ** Documents that follow the schema of the configuration file *)

(** The value of the key [name] when it is a string. *)
Definition str_name (e : yaml) : option string :=
  match e with
  | YMap kvs =>
      match assoc "name" kvs with
      | Some (YStr s) => Some s
      | _ => None
      end
  | _ => None
  end.

Definition is_mapping (v : yaml) : bool :=
  match v with YMap _ => true | _ => false end.

Definition valid_model (m : yaml) : bool :=
  match str_name m with Some _ => true | None => false end.

(** A mapping with a string [name] and a non-empty list of valid models. *)
Definition valid_provider (p : yaml) : bool :=
  match p, str_name p with
  | YMap kvs, Some _ =>
      match assoc "models" kvs with
      | Some (YList (m :: ms)) => forallb valid_model (m :: ms)
      | _ => false
      end
  | _, _ => false
  end.

(** An optional section: absent, null or a mapping. *)
Definition optional_mapping (v : yaml) : bool :=
  is_None v || is_mapping v.

Definition valid_conversation_cache (v : yaml) : bool :=
  match v with
  | YNull => true
  | YMap kvs =>
      let type := default YNull (assoc "type" kvs) in
      if eq_str type "redis" then is_mapping (default YNull (assoc "redis" kvs))
      else if eq_str type "memory"
           then is_mapping (default YNull (assoc "memory" kvs))
           else true
  | _ => false
  end.

Definition valid_ols_config (v : yaml) : bool :=
  match v with
  | YNull => true
  | YMap kvs =>
      valid_conversation_cache (default YNull (assoc "conversation_cache" kvs))
      && optional_mapping (default YNull (assoc "logger_config" kvs))
  | _ => false
  end.

(** The provider entries of a document. *)
Definition provider_entries (doc : yaml) : list yaml :=
  match doc with
  | YMap kvs =>
      match assoc "llm_providers" kvs with
      | Some (YList ps) => ps
      | _ => []
      end
  | _ => []
  end.

Definition valid_doc (doc : yaml) : bool :=
  match doc with
  | YMap kvs =>
      match assoc "llm_providers" kvs with
      | Some (YList (p :: ps)) =>
          forallb valid_provider (p :: ps)
          && valid_ols_config (default YNull (assoc "ols_config" kvs))
      | _ => false
      end
  | _ => false
  end.

(** The names the entries of a list give, as dictionary keys. *)
Definition entry_names (items : list yaml) : list yaml :=
  omap (fun e => YStr <$> str_name e) items.

(** ** Definitions used to state the properties *)

(** Every provider of [pd] refers to a dictionary of [ms]. *)
Definition locs_ok (ms : list (dict ModelConfig)) (pd : dict ProviderConfig)
  : Prop :=
  Forall (fun kv => p_models (snd kv) < length ms) pd.

(** The configuration [Config(data)] builds, read from the store it leaves,
    when the class defaults are empty. *)
Definition Config_denote (data : yaml) : result ConfigView :=
  if is_None data then Ok (mkConfigView None None)
  else
    let? llm_data := py_get data "llm_providers" YNull in
    match LLMConfig_denote [] [] llm_data with
    | (Raise e, _) => Raise e
    | (Ok _, pd) =>
        let? ols_data := py_get data "ols_config" YNull in
        let? ols := OLSConfig_init ols_data in
        Ok (mkConfigView (Some pd) (Some ols))
    end.

(** [h'] is [h] with more dictionaries allocated. *)
Definition heap_extends (h h' : heap) : Prop :=
  exists ds pds,
    models_store h' = models_store h ++ ds /\
    providers_store h' = providers_store h ++ pds.

(** The references of [c] are allocated in [h]. *)
Definition config_ok (h : heap) (c : Config) : Prop :=
  match llm_config c with
  | None => True
  | Some llm =>
      exists pd, providers_store h !! llm_providers llm = Some pd /\
                 locs_ok (models_store h) pd
  end.

(** The number of entries of [d] whose key equals [k]. *)
Fixpoint dict_count {V} (k : yaml) (d : dict V) : nat :=
  match d with
  | [] => 0
  | (k', _) :: rest => (if key_eqb k' k then 1 else 0) + dict_count k rest
  end.

(** [entry] assigns the item [x] under its string name. *)
Definition keyed_by_name {V} (entry : yaml -> result (yaml * V)) (x : yaml)
  : Prop :=
  exists s v, str_name x = Some s /\ entry x = Ok (YStr s, v).

(** The two exceptions of the branch [data is None] of
    [ModelConfig.__init__]: the one it means to raise and the one that
    formatting the message raises. *)
Definition model_config_missing (e : error) : bool :=
  match e with
  | Exception msg _ => String.eqb msg "model config is missing for model "
  | TypeError msg => String.eqb msg "'NoneType' object is not subscriptable"
  | _ => false
  end.

(** A mapping without the key [name], or with a null [name]. *)
Definition nameless (e : yaml) : bool :=
  match e with
  | YMap kvs => is_None (default YNull (assoc "name" kvs))
  | _ => false
  end.

(** ** Example documents *)

(** One provider ["openai"] with one model ["gpt-4"]; every key of
    [ols_config] given. *)
Definition providers_openai : yaml :=
  YList [YMap [("name", YStr "openai");
               ("models", YList [YMap [("name", YStr "gpt-4")]])]].

Definition doc_full : yaml :=
  YMap [("llm_providers", providers_openai);
        ("ols_config",
         YMap [("default_model", YStr "gpt-4");
               ("classifier_model", YStr "gpt-4");
               ("conversation_cache",
                YMap [("type", YStr "memory");
                      ("memory", YMap [("max_entries", YInt 100)])]);
               ("logger_config", YMap [("level", YStr "INFO")])])].

(** [doc_full] without [default_model]. *)
Definition doc_without_default_model : yaml :=
  YMap [("llm_providers", providers_openai);
        ("ols_config",
         YMap [("classifier_model", YStr "gpt-4");
               ("conversation_cache",
                YMap [("type", YStr "memory");
                      ("memory", YMap [("max_entries", YInt 100)])]);
               ("logger_config", YMap [("level", YStr "INFO")])])].

(** Only the providers. *)
Definition doc_providers_only : yaml :=
  YMap [("llm_providers", providers_openai)].

(** An empty list of providers. *)
Definition doc_no_providers : yaml :=
  YMap [("llm_providers", YList [])].

(** The file given as a [pathlib.Path], and as a [str]. *)
Definition path_object (parsed : result yaml) : source :=
  mkSource parsed (Some "olsconfig.yaml").
Definition path_str (parsed : result yaml) : source :=
  mkSource parsed None.

(** Models and providers with repeated names. *)
Definition model_gpt4_a : yaml := YMap [("name", YStr "gpt-4"); ("url", YStr "a")].
Definition model_gpt3 : yaml := YMap [("name", YStr "gpt-3")].
Definition model_gpt4_b : yaml := YMap [("name", YStr "gpt-4"); ("url", YStr "b")].

Definition provider_dup_models : list (string * yaml) :=
  [("name", YStr "openai");
   ("models", YList [model_gpt4_a; model_gpt3; model_gpt4_b])].

Definition provider_openai_a : yaml :=
  YMap [("name", YStr "openai"); ("url", YStr "a");
        ("models", YList [model_gpt4_a])].
Definition provider_openai_b : yaml :=
  YMap [("name", YStr "openai"); ("url", YStr "b");
        ("models", YList [model_gpt3])].

(** A provider without models, followed by a provider without a name. *)
Definition provider_no_models : yaml := YMap [("name", YStr "a")].
Definition provider_no_name : yaml := YMap [("url", YStr "x")].
Definition doc_nameless_second : yaml :=
  YMap [("llm_providers", YList [provider_no_models; provider_no_name])].

(** A model without a name between two named ones. *)
Definition model_no_name : yaml := YMap [("url", YStr "x")].

(** An empty [ols_config] section. *)
Definition doc_empty_ols : yaml :=
  YMap [("llm_providers", providers_openai); ("ols_config", YMap [])].

(** ** Documents that construction accepts *)

Definition is_ok {A} (r : result A) : bool :=
  match r with Ok _ => true | Raise _ => false end.

(** The value of [name] is neither [None] nor unhashable. *)
Definition constructible_name (kvs : list (string * yaml)) : bool :=
  negb (is_None (default YNull (assoc "name" kvs)))
  && hashable (default YNull (assoc "name" kvs)).

Definition constructible_model (m : yaml) : bool :=
  match m with
  | YMap kvs => constructible_name kvs
  | _ => false
  end.

Definition constructible_provider (p : yaml) : bool :=
  match p with
  | YMap kvs =>
      constructible_name kvs
      && match assoc "models" kvs with
         | Some (YList (m :: ms)) => forallb constructible_model (m :: ms)
         | _ => false
         end
  | _ => false
  end.

Definition constructible_doc (doc : yaml) : bool :=
  match doc with
  | YNull => true
  | YMap kvs =>
      match assoc "llm_providers" kvs with
      | Some (YList (p :: ps)) =>
          forallb constructible_provider (p :: ps)
          && valid_ols_config (default YNull (assoc "ols_config" kvs))
      | _ => false
      end
  | _ => false
  end.

(** [v] is [None], or a list, mapping or string of length 0. *)
Definition no_items (v : yaml) : bool :=
  match v with
  | YNull | YList [] | YMap [] | YStr EmptyString => true
  | _ => false
  end.

(** The exceptions of the constructors in a load. *)
Definition construction_error (e : error) : bool :=
  match e with
  | AttributeError attr => String.eqb attr "get"
  | TypeError msg =>
      String.eqb msg "object has no len()" || String.eqb msg "unhashable type"
  | Exception msg None =>
      String.eqb msg "no llm providers configured"
      || String.eqb msg "provider name is missing"
      || String.eqb msg "model name is missing"
      || String.eqb msg "redis config is missing"
      || String.eqb msg "memory config is missing"
  | Exception msg (Some arg) =>
      String.eqb msg "no models configured for provider " && negb (is_None arg)
  | _ => false
  end.

(** [ols_config.default_model] as the document gives it, [None] when the
    section or the key is absent. *)
Definition doc_default_model (doc : yaml) : yaml :=
  match doc with
  | YMap kvs =>
      match default YNull (assoc "ols_config" kvs) with
      | YMap ols => default YNull (assoc "default_model" ols)
      | _ => YNull
      end
  | _ => YNull
  end.



(** ** The defaults read from the environment ([DeadConfig.set_defaults]) *)

(** [os.environ]. *)
Definition environ : Type := string -> option string.

(** [os.getenv(key, dflt)] for a string [dflt]. *)
Definition os_getenv (env : environ) (key : string) (dflt : string) : string :=
  default dflt (env key).

(** [str.lower] on the letters [A] to [Z]; the other bytes, among them those
    of the characters outside ASCII, are kept: none of these characters has
    a lower case made of ASCII letters that matters to the comparison with
    ["true"]. *)
Definition ascii_lower (c : ascii) : ascii :=
  let n := nat_of_ascii c in
  if Nat.leb 65 n && Nat.leb n 90 then ascii_of_nat (n + 32) else c.

Fixpoint str_lower (s : string) : string :=
  match s with
  | EmptyString => EmptyString
  | String c rest => String (ascii_lower c) (str_lower rest)
  end.

(** The attributes [set_defaults] assigns. *)
Record Defaults : Type := mkDefaults {
  logfile : option string;
  enable_ui : bool;
  base_completion_model : string }.

Definition set_defaults (env : environ) : Defaults :=
  mkDefaults
    (env "OLS_LOGFILE")
    (if String.eqb (str_lower (os_getenv env "OLS_ENABLE_UI" "True")) "true"
     then true else false)
    (os_getenv env "BASE_COMPLETION_MODEL" "ibm/granite-20b-instruct-v1").

(** ** More example documents *)

Definition provider_watsonx : yaml :=
  YMap [("name", YStr "watsonx"); ("models", YList [model_gpt3])].

(** Two providers with different names. *)
Definition doc_two_providers : yaml :=
  YMap [("llm_providers", YList [provider_openai_a; provider_watsonx])].

(** A provider whose name is a list. *)
Definition provider_list_name : list (string * yaml) :=
  [("name", YList [YStr "a"; YStr "b"]); ("models", YList [model_gpt3])].

(** A provider with a model whose name is a list. *)
Definition provider_model_list_name : list (string * yaml) :=
  [("name", YStr "openai");
   ("models", YList [model_gpt3; YMap [("name", YList [YStr "a"])]])].

(** A provider with a model that is a string. *)
Definition provider_model_string : list (string * yaml) :=
  [("name", YStr "openai"); ("models", YList [model_gpt3; YStr "gpt-4"])].

(** A cache of type ["memory"] with a [redis] block that is not a mapping. *)
Definition cache_memory_with_redis : yaml :=
  YMap [("type", YStr "memory"); ("memory", YMap [("max_entries", YInt 100)]);
        ("redis", YInt 5)].

(** An environment with [OLS_ENABLE_UI=TRUE]. *)
Definition env_ui_upper : environ :=
  fun key => if String.eqb key "OLS_ENABLE_UI" then Some "TRUE" else None.

(** * Properties *)

(** ** The monad and the loops *)

Lemma bind_lift {A B} (r : result A) (k : A -> M B) (h : heap) :
  bind (lift r) k h = match r with Ok a => k a h | Raise e => (Raise e, h) end.
Proof. unfold bind, lift. by destruct r. Qed.

Lemma for_each_app {A} (xs ys : list A) (body : A -> M unit) (h : heap) :
  for_each (xs ++ ys) body h =
  match for_each xs body h with
  | (Ok _, h') => for_each ys body h'
  | (Raise e, h') => (Raise e, h')
  end.
Proof.
  revert h. induction xs as [|x xs IH]; intros h; [done|].
  cbn [for_each app]. unfold bind.
  destruct (body x h) as [[u|e] h1]; [apply IH|done].
Qed.

(** ** The dictionaries *)

Lemma alter_last {A} (f : A -> A) (l : list A) (x : A) :
  alter f (length l) (l ++ [x]) = l ++ [f x].
Proof.
  replace (length l) with (length l + 0) by lia.
  by rewrite alter_app_r.
Qed.

Lemma lookup_last {A} (l : list A) (x : A) :
  (l ++ [x]) !! length l = Some x.
Proof. by rewrite list_lookup_middle. Qed.

(** ** [ProviderConfig.__init__] *)

Lemma ProviderConfig_models_body_spec (l : loc) (m : yaml) (h : heap) :
  ProviderConfig_models_body l m h =
  match model_entry m with
  | Ok (k, v) =>
      (Ok tt, mkHeap (alter (dict_setitem k v) l (models_store h))
                     (providers_store h))
  | Raise e => (Raise e, h)
  end.
Proof.
  unfold ProviderConfig_models_body, model_entry.
  rewrite bind_lift. destruct (py_get m "name" YNull) as [name|e]; [|done].
  cbn [result_bind]. destruct (is_None name); [done|].
  rewrite bind_lift. destruct (ModelConfig_init m) as [model|e]; [|done].
  cbn [result_bind]. rewrite bind_lift.
  destruct (py_getitem m "name") as [key|e]; [|done].
  cbn [result_bind]. unfold models_setitem. by destruct (hashable key).
Qed.

(** The loop over the models only touches the dictionary of the instance. *)
Lemma ProviderConfig_models_loop (items : list yaml)
    (ms : list (dict ModelConfig)) (d : dict ModelConfig)
    (ps : list (dict ProviderConfig)) :
  for_each items (ProviderConfig_models_body (length ms)) (mkHeap (ms ++ [d]) ps) =
  (fst (dict_fill model_entry items d),
   mkHeap (ms ++ [snd (dict_fill model_entry items d)]) ps).
Proof.
  revert d. induction items as [|m items IH]; intros d; [done|].
  cbn [for_each dict_fill]. unfold bind.
  rewrite ProviderConfig_models_body_spec.
  destruct (model_entry m) as [[k v]|e]; [|done].
  cbn [models_store providers_store]. rewrite alter_last. apply IH.
Qed.

(** [ProviderConfig(data)] allocates one dictionary, the instance's
    [models], and leaves the rest of the store as it was. *)
Lemma ProviderConfig_init_spec (data : yaml) (h : heap) :
  ProviderConfig_init data h =
  let d0 := default [] (models_store h !! ProviderConfig_models) in
  (match fst (ProviderConfig_denote d0 data) with
   | Ok (name, url, credential_path) =>
       Ok (mkProviderConfig name url credential_path (length (models_store h)))
   | Raise e => Raise e
   end,
   mkHeap (models_store h ++ [snd (ProviderConfig_denote d0 data)])
          (providers_store h)).
Proof.
  destruct h as [ms ps]. cbn [models_store providers_store].
  unfold ProviderConfig_init, ProviderConfig_denote, ProviderConfig_head.
  unfold bind at 1. unfold BaseModel_init_models.
  cbn [models_store providers_store].
  destruct (is_None data); [done|].
  rewrite bind_lift. destruct (py_get data "name" YNull) as [name|e]; [|done].
  cbn [result_bind]. rewrite bind_lift.
  destruct (py_get data "url" YNull) as [url|e]; [|done].
  cbn [result_bind]. rewrite bind_lift.
  destruct (py_get data "credential_path" YNull) as [cred|e]; [|done].
  cbn [result_bind]. rewrite bind_lift.
  destruct (ProviderConfig_no_models data) as [[|]|e]; [| |done];
    cbn [result_bind]; rewrite bind_lift.
  - by destruct (py_getitem data "name").
  - destruct (py_getitem data "models") as [msv|e]; [|done].
    cbn [result_bind]. rewrite bind_lift.
    destruct (py_iter msv) as [items|e]; [|done].
    cbn [result_bind]. unfold bind at 1.
    rewrite ProviderConfig_models_loop.
    destruct (dict_fill model_entry items _) as [[[]|e] d]; done.
Qed.

(** ** Reading providers from a store that grows *)

Lemma provider_view_app ms ds (p : ProviderConfig) :
  p_models p < length ms ->
  provider_view (ms ++ ds) p = provider_view ms p.
Proof. intros Hlt. unfold provider_view. by rewrite lookup_app_l. Qed.

Lemma providers_view_app ms ds (pd : dict ProviderConfig) :
  locs_ok ms pd -> providers_view (ms ++ ds) pd = providers_view ms pd.
Proof.
  induction 1 as [|[k p] pd Hp _ IH]; [done|].
  unfold providers_view in *. cbn [map fst snd] in *.
  by rewrite provider_view_app, IH.
Qed.

Lemma locs_ok_app ms ds (pd : dict ProviderConfig) :
  locs_ok ms pd -> locs_ok (ms ++ ds) pd.
Proof.
  unfold locs_ok. intros Hok. eapply Forall_impl; [exact Hok|].
  intros kv Hlt. cbn beta in *. rewrite length_app. lia.
Qed.

Lemma locs_ok_setitem ms k (v : ProviderConfig) (pd : dict ProviderConfig) :
  p_models v < length ms -> locs_ok ms pd -> locs_ok ms (dict_setitem k v pd).
Proof.
  intros Hv. induction 1 as [|[k' p] pd Hp Hpd IH]; cbn [dict_setitem].
  - by repeat constructor.
  - destruct (key_eqb k' k); constructor; done.
Qed.

Lemma providers_view_setitem ms k (v : ProviderConfig) (pd : dict ProviderConfig) :
  providers_view ms (dict_setitem k v pd) =
  dict_setitem k (provider_view ms v) (providers_view ms pd).
Proof.
  induction pd as [|[k' p] pd IH]; [done|].
  cbn [dict_setitem providers_view map fst snd].
  destruct (key_eqb k' k); [done|].
  cbn [map fst snd]. f_equal. apply IH.
Qed.

Lemma dict_keys_providers_view ms (pd : dict ProviderConfig) :
  dict_keys (providers_view ms pd) = dict_keys pd.
Proof.
  unfold dict_keys, providers_view. rewrite map_map. by apply map_ext.
Qed.

(** ** [LLMConfig.__init__] *)

Lemma LLMConfig_providers_body_spec (l : loc) (p : yaml) (h : heap) :
  LLMConfig_providers_body l p h =
  let d0 := default [] (models_store h !! ProviderConfig_models) in
  let h1 := mkHeap (models_store h ++ [snd (ProviderConfig_denote d0 p)])
                   (providers_store h) in
  match py_get p "name" YNull with
  | Raise e => (Raise e, h)
  | Ok name =>
      if is_None name
      then (Raise (Exception "provider name is missing" None), h)
      else
        match fst (ProviderConfig_denote d0 p) with
        | Raise e => (Raise e, h1)
        | Ok (n, u, c) =>
            match py_getitem p "name" with
            | Raise e => (Raise e, h1)
            | Ok key =>
                if hashable key
                then (Ok tt,
                      mkHeap (models_store h1)
                        (alter (dict_setitem key
                                  (mkProviderConfig n u c (length (models_store h))))
                               l (providers_store h)))
                else (Raise (TypeError "unhashable type"), h1)
            end
        end
  end.
Proof.
  unfold LLMConfig_providers_body. rewrite bind_lift.
  destruct (py_get p "name" YNull) as [name|e]; [|done].
  cbn zeta. destruct (is_None name); [done|].
  unfold bind at 1. rewrite ProviderConfig_init_spec. cbn zeta.
  destruct (fst (ProviderConfig_denote _ p)) as [[[n u] c]|e]; [|done].
  rewrite bind_lift. destruct (py_getitem p "name") as [key|e]; [|done].
  unfold providers_setitem. cbn [models_store providers_store].
  by destruct (hashable key).
Qed.

(** The loop over the providers, read through [providers_view]: it runs as
    [dict_fill] says, it appends to the store of model dictionaries and it
    assigns to the instance's own dictionary of providers. *)
Lemma LLMConfig_providers_loop (d0 : dict ModelConfig) (items : list yaml) :
  forall (ms : list (dict ModelConfig)) (ps : list (dict ProviderConfig))
         (pd : dict ProviderConfig),
    ms !! ProviderConfig_models = Some d0 ->
    locs_ok ms pd ->
    exists ds pd',
      for_each items (LLMConfig_providers_body (length ps))
               (mkHeap ms (ps ++ [pd])) =
      (fst (dict_fill (provider_entry d0) items (providers_view ms pd)),
       mkHeap (ms ++ ds) (ps ++ [pd'])) /\
      locs_ok (ms ++ ds) pd' /\
      providers_view (ms ++ ds) pd' =
      snd (dict_fill (provider_entry d0) items (providers_view ms pd)).
Proof.
  induction items as [|p items IH]; intros ms ps pd Hd0 Hok.
  - exists [], pd. rewrite app_nil_r. by cbn.
  - cbn [for_each dict_fill]. unfold bind.
    rewrite LLMConfig_providers_body_spec.
    cbn [models_store providers_store]. rewrite Hd0. cbn [from_option id].
    unfold provider_entry, ProviderConfig_view.
    destruct (py_get p "name" YNull) as [name|e]; cbn [result_bind].
    2:{ exists [], pd. rewrite app_nil_r. by cbn. }
    destruct (is_None name).
    { exists [], pd. rewrite app_nil_r. by cbn. }
    destruct (ProviderConfig_denote d0 p) as [[[[n u] c]|e] d];
      cbn [fst snd result_bind].
    2:{ exists [d], pd. split; [done|]. split; [by apply locs_ok_app|].
        by apply providers_view_app. }
    destruct (py_getitem p "name") as [key|e]; cbn [result_bind].
    2:{ exists [d], pd. split; [done|]. split; [by apply locs_ok_app|].
        by apply providers_view_app. }
    destruct (hashable key).
    2:{ exists [d], pd. split; [done|]. split; [by apply locs_ok_app|].
        by apply providers_view_app. }
    rewrite alter_last.
    set (pc := mkProviderConfig n u c (length ms)).
    assert (Hpc : p_models pc < length (ms ++ [d])).
    { rewrite length_app. cbn. lia. }
    destruct (IH (ms ++ [d]) ps (dict_setitem key pc pd)) as (ds & pd' & Hrun & Hok' & Hview).
    { by apply lookup_app_l_Some. }
    { apply locs_ok_setitem; [done|]. by apply locs_ok_app. }
    assert (Hv : providers_view (ms ++ [d]) (dict_setitem key pc pd) =
                 dict_setitem key (mkProviderView n u c d) (providers_view ms pd)).
    { rewrite providers_view_setitem, providers_view_app by done.
      f_equal. unfold provider_view, pc. cbn [p_name p_url p_credential_path p_models].
      by rewrite lookup_last. }
    rewrite Hv in Hrun, Hview.
    exists (d :: ds), pd'. rewrite <- app_assoc in Hrun, Hok', Hview.
    cbn [app] in Hrun, Hok', Hview. done.
Qed.

Lemma LLMConfig_init_spec (data : yaml) (h : heap) :
  cls_ok h ->
  exists ds pd',
    LLMConfig_init data h =
    (match fst (LLMConfig_denote [] [] data) with
     | Ok _ => Ok (mkLLMConfig (length (providers_store h)))
     | Raise e => Raise e
     end,
     mkHeap (models_store h ++ ds) (providers_store h ++ [pd'])) /\
    locs_ok (models_store h ++ ds) pd' /\
    providers_view (models_store h ++ ds) pd' =
    snd (LLMConfig_denote [] [] data).
Proof.
  destruct h as [ms ps]. intros [Hms Hps]. cbn [models_store providers_store] in *.
  unfold LLMConfig_init, LLMConfig_denote. unfold bind at 1.
  unfold BaseModel_init_providers. cbn [models_store providers_store].
  rewrite Hps. cbn [from_option id]. rewrite bind_lift.
  destruct (LLMConfig_no_providers data) as [[|]|e]; cbn [fst snd].
  1,3:(exists [], []; rewrite app_nil_r; repeat split; constructor).
  rewrite bind_lift. destruct (py_iter data) as [items|e]; cbn [fst snd].
  2:{ exists [], []. rewrite app_nil_r. repeat split. constructor. }
  destruct (LLMConfig_providers_loop [] items ms ps []) as (ds & pd' & Hrun & Hok & Hview);
    [done|constructor|].
  exists ds, pd'. unfold bind. rewrite Hrun. cbn [providers_view map] in *.
  split; [|done].
  by destruct (fst (dict_fill (provider_entry []) items [])) as [[]|e].
Qed.

(** ** [Config.__init__] *)

Lemma heap_extends_refl (h : heap) : heap_extends h h.
Proof. exists [], []. by rewrite !app_nil_r. Qed.

Lemma cls_ok_extends (h h' : heap) :
  cls_ok h -> heap_extends h h' -> cls_ok h'.
Proof.
  intros [Hm Hp] (ds & pds & Hm' & Hp'). unfold cls_ok.
  rewrite Hm', Hp'. split; by apply lookup_app_l_Some.
Qed.

Lemma config_view_extends (h h' : heap) (c : Config) :
  config_ok h c -> heap_extends h h' -> config_view h' c = config_view h c.
Proof.
  unfold config_ok, config_view. intros Hok (ds & pds & Hm & Hp).
  destruct (llm_config c) as [llm|]; [|done]. cbn [option_map].
  destruct Hok as (pd & Hpd & Hlocs). rewrite Hm, Hp.
  rewrite (lookup_app_l_Some _ _ _ _ Hpd), Hpd. cbn [from_option id].
  by rewrite providers_view_app.
Qed.

(** [Config(data)] run in a store whose class defaults are empty computes
    [Config_denote data] and only allocates. *)
Lemma Config_init_spec (data : yaml) (h : heap) :
  cls_ok h ->
  exists r h',
    Config_init data h = (r, h') /\
    heap_extends h h' /\
    match r with
    | Ok c => Config_denote data = Ok (config_view h' c) /\ config_ok h' c
    | Raise e => Config_denote data = Raise e
    end.
Proof.
  intros Hcls. unfold Config_init, Config_denote.
  destruct (is_None data).
  { exists (Ok (mkConfig None None)), h. split; [done|].
    split; [apply heap_extends_refl|done]. }
  rewrite bind_lift.
  destruct (py_get data "llm_providers" YNull) as [llm_data|e]; cbn [result_bind].
  2:{ exists (Raise e), h. split; [done|]. split; [apply heap_extends_refl|done]. }
  destruct (LLMConfig_init_spec llm_data h Hcls) as (ds & pd' & Hrun & Hlocs & Hview).
  unfold bind at 1. rewrite Hrun.
  assert (Hext : heap_extends h (mkHeap (models_store h ++ ds)
                                        (providers_store h ++ [pd']))).
  { by exists ds, [pd']. }
  destruct (LLMConfig_denote [] [] llm_data) as [[[]|e] pd]; cbn [fst snd] in *.
  2:{ by exists (Raise e), (mkHeap (models_store h ++ ds) (providers_store h ++ [pd'])). }
  rewrite bind_lift.
  destruct (py_get data "ols_config" YNull) as [ols_data|e]; cbn [result_bind].
  2:{ by exists (Raise e), (mkHeap (models_store h ++ ds) (providers_store h ++ [pd'])). }
  rewrite bind_lift.
  destruct (OLSConfig_init ols_data) as [ols|e]; cbn [result_bind].
  2:{ by exists (Raise e), (mkHeap (models_store h ++ ds) (providers_store h ++ [pd'])). }
  eexists _, _. split; [reflexivity|]. split; [done|].
  unfold config_view, config_ok.
  cbn [llm_config ols_config llm_providers models_store providers_store option_map].
  rewrite lookup_last. cbn [from_option id]. rewrite Hview. split; [done|].
  by exists pd'.
Qed.

(** ** Looking up and counting in a filled dictionary *)

Lemma key_eqb_str (k : yaml) (s : string) :
  key_eqb k (YStr s) = true <-> k = YStr s.
Proof.
  destruct k; cbn; try (split; congruence).
  rewrite String.eqb_eq. split; congruence.
Qed.

Section DictSetitem.
Context {V : Type}.
Implicit Types (d : dict V) (v : V) (s t : string).

Lemma dict_keys_setitem_str s v d (x : yaml) :
  In x (dict_keys (dict_setitem (YStr s) v d)) <->
  In x (dict_keys d) \/ x = YStr s.
Proof.
  induction d as [|[k' v'] d IH]; cbn [dict_setitem dict_keys map fst In].
  - intuition.
  - destruct (key_eqb k' (YStr s)) eqn:E; cbn [map fst In].
    + apply key_eqb_str in E. subst k'. intuition.
    + fold (dict_keys (dict_setitem (YStr s) v d)). rewrite IH.
      fold (dict_keys d). intuition.
Qed.

Lemma dict_lookup_setitem_eq s v d :
  dict_lookup (YStr s) (dict_setitem (YStr s) v d) = Some v.
Proof.
  induction d as [|[k' v'] d IH]; cbn [dict_setitem dict_lookup].
  - cbn. by rewrite String.eqb_refl.
  - destruct (key_eqb k' (YStr s)) eqn:E; cbn [dict_lookup]; by rewrite E.
Qed.

Lemma dict_lookup_setitem_ne s t v d :
  s <> t ->
  dict_lookup (YStr t) (dict_setitem (YStr s) v d) = dict_lookup (YStr t) d.
Proof.
  intros Hne. induction d as [|[k' v'] d IH]; cbn [dict_setitem dict_lookup].
  - cbn. destruct (String.eqb_spec s t); done.
  - destruct (key_eqb k' (YStr s)) eqn:E; cbn [dict_lookup].
    + apply key_eqb_str in E. subst k'. cbn.
      destruct (String.eqb_spec s t); done.
    + by rewrite IH.
Qed.

Lemma dict_count_setitem_0 (k : yaml) s v d :
  key_eqb (YStr s) k = false ->
  dict_count k d = 0 -> dict_count k (dict_setitem (YStr s) v d) = 0.
Proof.
  intros Hs. induction d as [|[k' v'] d IH]; cbn [dict_setitem dict_count].
  - by rewrite Hs.
  - destruct (key_eqb k' (YStr s)); cbn [dict_count]; [done|].
    destruct (key_eqb k' k); [done|]. apply IH.
Qed.

Lemma dict_count_setitem_le (k : yaml) s v d :
  dict_count k d <= 1 -> dict_count k (dict_setitem (YStr s) v d) <= 1.
Proof.
  induction d as [|[k' v'] d IH]; cbn [dict_setitem dict_count]; intros Hle.
  - destruct (key_eqb (YStr s) k); lia.
  - destruct (key_eqb k' (YStr s)) eqn:E; cbn [dict_count]; [done|].
    destruct (key_eqb k' k) eqn:Ek; [|by apply IH].
    rewrite dict_count_setitem_0; [done| |lia].
    destruct k; try done. apply key_eqb_str in Ek. subst k'.
    cbn in *. by rewrite String.eqb_sym.
Qed.

Lemma dict_lookup_count (k : yaml) v d :
  dict_lookup k d = Some v -> 1 <= dict_count k d.
Proof.
  induction d as [|[k' v'] d IH]; cbn [dict_lookup dict_count]; [done|].
  destruct (key_eqb k' k); [lia|]. intros H. apply IH in H. lia.
Qed.
End DictSetitem.

Lemma entry_names_cons (x : yaml) (items : list yaml) :
  entry_names (x :: items) =
  match str_name x with
  | Some s => YStr s :: entry_names items
  | None => entry_names items
  end.
Proof. unfold entry_names. cbn. by destruct (str_name x). Qed.

Section DictFill.
Context {V : Type} (entry : yaml -> result (yaml * V)).
Implicit Types (d : dict V) (items : list yaml).

Lemma dict_fill_app items1 items2 d :
  dict_fill entry (items1 ++ items2) d =
  match dict_fill entry items1 d with
  | (Ok _, d') => dict_fill entry items2 d'
  | (Raise e, d') => (Raise e, d')
  end.
Proof.
  revert d. induction items1 as [|x items1 IH]; intros d; [done|].
  cbn [app dict_fill]. destruct (entry x) as [[k v]|e]; [apply IH|done].
Qed.

Lemma dict_fill_ok items d :
  Forall (keyed_by_name entry) items ->
  fst (dict_fill entry items d) = Ok tt.
Proof.
  intros H. revert d.
  induction H as [|x items (s & v & _ & Hx) _ IH]; intros d; [done|].
  cbn [dict_fill]. rewrite Hx. apply IH.
Qed.

Lemma dict_fill_keys items d (k : yaml) :
  Forall (keyed_by_name entry) items ->
  In k (dict_keys (snd (dict_fill entry items d))) <->
  In k (dict_keys d) \/ In k (entry_names items).
Proof.
  intros H. revert d.
  induction H as [|x items (s & v & Hs & Hx) _ IH]; intros d.
  - cbn. intuition.
  - cbn [dict_fill]. rewrite Hx, IH, dict_keys_setitem_str.
    rewrite entry_names_cons, Hs. cbn [In]. intuition.
Qed.

Lemma dict_fill_lookup_other items d (n : string) :
  Forall (keyed_by_name entry) items ->
  Forall (fun x => str_name x <> Some n) items ->
  dict_lookup (YStr n) (snd (dict_fill entry items d)) = dict_lookup (YStr n) d.
Proof.
  intros H. revert d.
  induction H as [|x items (s & v & Hs & Hx) _ IH]; intros d Hne; [done|].
  apply Forall_cons in Hne as [Hn Hne].
  cbn [dict_fill]. rewrite Hx, IH by done.
  apply dict_lookup_setitem_ne. congruence.
Qed.

(** Last one wins. *)
Lemma dict_fill_last pre post (e : yaml) d (n : string) (v : V) :
  Forall (keyed_by_name entry) (pre ++ e :: post) ->
  entry e = Ok (YStr n, v) ->
  Forall (fun x => str_name x <> Some n) post ->
  dict_lookup (YStr n) (snd (dict_fill entry (pre ++ e :: post) d)) = Some v.
Proof.
  intros H He Hpost.
  apply Forall_app in H as [Hpre H]. apply Forall_cons in H as [_ H].
  rewrite dict_fill_app.
  pose proof (dict_fill_ok pre d Hpre) as Hok.
  destruct (dict_fill entry pre d) as [[[]|e'] d1]; [|done].
  cbn [dict_fill]. rewrite He, dict_fill_lookup_other by done.
  apply dict_lookup_setitem_eq.
Qed.

Lemma dict_fill_count items d (k : yaml) :
  Forall (keyed_by_name entry) items ->
  dict_count k d <= 1 ->
  dict_count k (snd (dict_fill entry items d)) <= 1.
Proof.
  intros H. revert d.
  induction H as [|x items (s & v & Hs & Hx) _ IH]; intros d Hle; [done|].
  cbn [dict_fill]. rewrite Hx. apply IH. by apply dict_count_setitem_le.
Qed.
End DictFill.

(** ** Entries that follow the schema *)

Lemma model_entry_valid (m : yaml) :
  valid_model m = true ->
  exists s v, str_name m = Some s /\ model_entry m = Ok (YStr s, v) /\
              ModelConfig_init m = Ok v.
Proof.
  unfold valid_model, str_name, model_entry, ModelConfig_init.
  destruct m as [| | | | |kvs]; try done.
  cbn [py_get py_getitem is_None result_bind].
  destruct (assoc "name" kvs) as [[| | |s| |]|]; try done. intros _.
  cbn [from_option id is_None hashable]. by eexists _, _.
Qed.

Lemma valid_models_keyed (items : list yaml) :
  forallb valid_model items = true ->
  Forall (keyed_by_name model_entry) items.
Proof.
  rewrite forallb_forall, Forall_forall. intros H m Hm.
  apply list_elem_of_In, H, model_entry_valid in Hm.
  destruct Hm as (s & v & Hs & Hm & _). by exists s, v.
Qed.

Lemma provider_entry_valid (p : yaml) :
  valid_provider p = true ->
  exists s pv, str_name p = Some s /\ provider_entry [] p = Ok (YStr s, pv) /\
               ProviderConfig_view [] p = Ok pv /\
               pv_models pv = snd (dict_fill model_entry
                                     (match p with
                                      | YMap kvs =>
                                          match assoc "models" kvs with
                                          | Some (YList ms) => ms
                                          | _ => []
                                          end
                                      | _ => []
                                      end) []).
Proof.
  unfold valid_provider, str_name, provider_entry, ProviderConfig_view,
    ProviderConfig_denote, ProviderConfig_head, ProviderConfig_no_models.
  destruct p as [| | | | |kvs]; try done.
  cbn [py_get py_getitem is_None result_bind].
  destruct (assoc "name" kvs) as [[| | |s| |]|]; try done.
  destruct (assoc "models" kvs) as [[| | | |[|m ms]|]|]; try done.
  intros Hms. apply valid_models_keyed in Hms.
  cbn [from_option id is_None hashable py_len py_iter length Nat.eqb result_bind].
  pose proof (dict_fill_ok model_entry (m :: ms) [] Hms) as Hok.
  destruct (dict_fill model_entry (m :: ms) []) as [[[]|e] d]; [|done].
  cbn [result_bind]. by eexists _, _.
Qed.

Lemma valid_providers_keyed (items : list yaml) :
  forallb valid_provider items = true ->
  Forall (keyed_by_name (provider_entry [])) items.
Proof.
  rewrite forallb_forall, Forall_forall. intros H p Hp.
  apply list_elem_of_In, H, provider_entry_valid in Hp.
  destruct Hp as (s & pv & Hs & Hp & _). by exists s, pv.
Qed.

(** ** The optional sections *)

Lemma RedisConfig_init_mapping (v : yaml) :
  is_mapping v = true -> exists r, RedisConfig_init v = Ok r.
Proof. destruct v; try done. intros _. by eexists. Qed.

Lemma MemoryConfig_init_mapping (v : yaml) :
  is_mapping v = true -> exists m, MemoryConfig_init v = Ok m.
Proof. destruct v; try done. intros _. by eexists. Qed.

Lemma ConversationCacheConfig_init_valid (v : yaml) :
  valid_conversation_cache v = true ->
  exists cc, ConversationCacheConfig_init v = Ok cc.
Proof.
  unfold valid_conversation_cache, ConversationCacheConfig_init.
  destruct v as [| | | | |kvs]; try done; [by eexists|].
  cbn [is_None py_get result_bind].
  destruct (eq_str _ "redis").
  - intros Hr. destruct (RedisConfig_init_mapping _ Hr) as [r Hr'].
    destruct (default YNull (assoc "redis" kvs)); try done.
    cbn [is_None]. rewrite Hr'. by eexists.
  - destruct (eq_str _ "memory"); [|by eexists].
    intros Hm. destruct (MemoryConfig_init_mapping _ Hm) as [m Hm'].
    destruct (default YNull (assoc "memory" kvs)); try done.
    cbn [is_None]. rewrite Hm'. by eexists.
Qed.

Lemma LoggerConfig_init_optional (v : yaml) :
  optional_mapping v = true -> exists lg, LoggerConfig_init v = Ok lg.
Proof. destruct v; try done; intros _; by eexists. Qed.

Lemma OLSConfig_init_valid (v : yaml) :
  valid_ols_config v = true -> exists ols, OLSConfig_init v = Ok ols.
Proof.
  unfold valid_ols_config, OLSConfig_init.
  destruct v as [| | | | |kvs]; try done; [by eexists|].
  intros [Hcc Hlg]%andb_prop.
  destruct (ConversationCacheConfig_init_valid _ Hcc) as [cc Hcc'].
  destruct (LoggerConfig_init_optional _ Hlg) as [lg Hlg'].
  cbn [is_None py_get result_bind]. rewrite Hcc'. cbn [result_bind].
  rewrite Hlg'. by eexists.
Qed.

(** A document that follows the schema is constructed, and its providers
    are filled from its provider entries. *)
Lemma Config_denote_valid (doc : yaml) :
  valid_doc doc = true ->
  exists ols,
    Config_denote doc =
    Ok (mkConfigView
          (Some (snd (dict_fill (provider_entry []) (provider_entries doc) [])))
          (Some ols)) /\
    Forall (keyed_by_name (provider_entry [])) (provider_entries doc).
Proof.
  unfold valid_doc, Config_denote, provider_entries, LLMConfig_denote,
    LLMConfig_no_providers.
  destruct doc as [| | | | |kvs]; try done.
  cbn [is_None py_get result_bind].
  destruct (assoc "llm_providers" kvs) as [[| | | |[|p ps]|]|]; try done.
  intros [Hps Hols]%andb_prop.
  apply valid_providers_keyed in Hps.
  destruct (OLSConfig_init_valid _ Hols) as [ols Hols'].
  cbn [from_option id is_None py_len py_iter length Nat.eqb result_bind].
  pose proof (dict_fill_ok (provider_entry []) (p :: ps) [] Hps) as Hok.
  destruct (dict_fill (provider_entry []) (p :: ps) []) as [[[]|e] pd]; [|done].
  rewrite Hols'. by exists ols.
Qed.

(** ** [load_config] *)

Lemma load_config_returned (config_file : source) (h h' : heap) (c : Config)
    (out : list output) :
  load_config config_file h = (Returned c, out, h') ->
  exists doc, src_parse config_file = Ok doc /\
              Config_init doc h = (Ok c, h') /\ out = [].
Proof.
  unfold load_config. rewrite bind_lift.
  destruct (src_parse config_file) as [doc|e].
  - destruct (Config_init doc h) as [[c'|e] h1] eqn:E.
    + intros [= -> <- ->]. by exists doc.
    + by destruct (src_name config_file).
  - by destruct (src_name config_file).
Qed.

Lemma load_config_ok (config_file : source) (doc : yaml) (h h' : heap)
    (c : Config) :
  src_parse config_file = Ok doc ->
  Config_init doc h = (Ok c, h') ->
  load_config config_file h = (Returned c, [], h').
Proof. intros Hdoc Hinit. unfold load_config. by rewrite bind_lift, Hdoc, Hinit. Qed.

Lemma str_name_getitem (p : yaml) (s : string) :
  str_name p = Some s -> py_getitem p "name" = Ok (YStr s).
Proof.
  unfold str_name, py_getitem. destruct p as [| | | | |kvs]; try done.
  destruct (assoc "name" kvs) as [[| | |t| |]|]; try done. by intros [= ->].
Qed.

Lemma entry_names_getitem {V} (entry : yaml -> result (yaml * V))
    (items : list yaml) (k : yaml) :
  Forall (keyed_by_name entry) items ->
  In k (entry_names items) <->
  exists p, In p items /\ py_getitem p "name" = Ok k.
Proof.
  induction 1 as [|x items (s & v & Hs & _) _ IH].
  - cbn. split; [done|]. by intros (p & [] & _).
  - rewrite entry_names_cons, Hs. cbn [In]. rewrite IH.
    pose proof (str_name_getitem x s Hs) as Hx. split.
    + intros [<-|(p & Hp & Hk)]; [by exists x; auto|by exists p; auto].
    + intros (p & [<-|Hp] & Hk); [left; congruence|right; by exists p].
Qed.

(** C4.  A document that follows the schema, with at least one provider,
    each with at least one named model, is loaded, and the keys of the
    resulting [llm_config.providers] are exactly the values of [name] of the
    provider entries of the document. *)
Theorem load_config_provider_keys (config_file : source) (doc : yaml) (h : heap) :
  cls_ok h ->
  src_parse config_file = Ok doc ->
  valid_doc doc = true ->
  exists c llm pd h',
    load_config config_file h = (Returned c, [], h') /\
    llm_config c = Some llm /\
    providers_store h' !! llm_providers llm = Some pd /\
    forall k, In k (dict_keys pd) <->
              exists p, In p (provider_entries doc) /\ py_getitem p "name" = Ok k.
Proof.
  intros Hcls Hdoc Hvalid.
  destruct (Config_denote_valid doc Hvalid) as (ols & Hden & Hkeyed).
  destruct (Config_init_spec doc h Hcls) as (r & h' & Hrun & _ & Hr).
  destruct r as [c|e]; [|congruence].
  destruct Hr as [Hview Hok]. rewrite Hden in Hview.
  injection Hview as Hprov Hols.
  unfold config_ok in Hok.
  destruct (llm_config c) as [llm|] eqn:Hllm; [|done].
  destruct Hok as (pd & Hpd & _).
  exists c, llm, pd, h'. split; [by apply (load_config_ok _ doc)|].
  split; [done|]. split; [done|].
  cbn [option_map] in Hprov. injection Hprov as Hprov.
  rewrite Hpd in Hprov. cbn [from_option id] in Hprov.
  intros k. rewrite <- (dict_keys_providers_view (models_store h') pd), <- Hprov.
  rewrite dict_fill_keys by done. rewrite <- (entry_names_getitem _ _ _ Hkeyed).
  cbn [dict_keys map In]. intuition.
Qed.

(** C8.  Loading the same document a second time, in the store the first
    load has left, returns a configuration with the same field values and
    the same provider and model dictionaries as the first, which are those
    the document alone determines; the configuration returned first is not
    changed by the second load, and the class-level defaults are still
    empty. *)
Theorem load_config_twice (config_file : source) (h h1 : heap) (c1 : Config)
    (out : list output) :
  cls_ok h ->
  load_config config_file h = (Returned c1, out, h1) ->
  exists doc c2 h2,
    src_parse config_file = Ok doc /\
    load_config config_file h1 = (Returned c2, [], h2) /\
    config_view h2 c2 = config_view h1 c1 /\
    Config_denote doc = Ok (config_view h2 c2) /\
    config_view h2 c1 = config_view h1 c1 /\
    cls_ok h2.
Proof.
  intros Hcls Hload.
  destruct (load_config_returned _ _ _ _ _ Hload) as (doc & Hdoc & Hinit & _).
  destruct (Config_init_spec doc h Hcls) as (r & h1' & Hrun & Hext & Hr).
  rewrite Hinit in Hrun. injection Hrun as <- <-.
  destruct Hr as [Hview1 Hok1].
  pose proof (cls_ok_extends _ _ Hcls Hext) as Hcls1.
  destruct (Config_init_spec doc h1 Hcls1) as (r & h2 & Hrun & Hext2 & Hr).
  destruct r as [c2|e]; [|congruence].
  destruct Hr as [Hview2 Hok2].
  exists doc, c2, h2. split; [done|].
  split; [by apply (load_config_ok _ doc)|].
  split; [congruence|]. split; [done|].
  split; [by apply config_view_extends|by apply (cls_ok_extends h1)].
Qed.

(** ** Duplicate names *)

Lemma dict_lookup_providers_view ms (pd : dict ProviderConfig) (k : yaml) :
  dict_lookup k (providers_view ms pd) = provider_view ms <$> dict_lookup k pd.
Proof.
  induction pd as [|[k' p] pd IH]; [done|].
  cbn [providers_view map dict_lookup fst snd].
  destruct (key_eqb k' k); [done|apply IH].
Qed.

Lemma dict_count_providers_view ms (pd : dict ProviderConfig) (k : yaml) :
  dict_count k (providers_view ms pd) = dict_count k pd.
Proof.
  induction pd as [|[k' p] pd IH]; [done|].
  cbn [providers_view map dict_count fst snd]. f_equal. apply IH.
Qed.

Lemma valid_provider_models (kvs : list (string * yaml)) (items : list yaml) :
  valid_provider (YMap kvs) = true ->
  assoc "models" kvs = Some (YList items) ->
  forallb valid_model items = true.
Proof.
  unfold valid_provider. destruct (str_name (YMap kvs)); [|done].
  intros H Hms. rewrite Hms in H. by destruct items.
Qed.

(** [ProviderConfig(data)] in a store whose class defaults are empty builds
    the provider [ProviderConfig_view [] data] describes. *)
Lemma ProviderConfig_init_view (data : yaml) (h : heap) (pv : ProviderView) :
  cls_ok h ->
  ProviderConfig_view [] data = Ok pv ->
  exists pc h',
    ProviderConfig_init data h = (Ok pc, h') /\
    models_store h' !! p_models pc = Some (pv_models pv) /\
    provider_view (models_store h') pc = pv.
Proof.
  intros [Hms _] Hview. rewrite ProviderConfig_init_spec. cbn zeta.
  rewrite Hms. cbn [from_option id].
  unfold ProviderConfig_view in Hview.
  destruct (ProviderConfig_denote [] data) as [[[[n u] c]|e] d]; [|done].
  injection Hview as <-. cbn [fst snd]. eexists _, _. split; [reflexivity|].
  unfold provider_view.
  cbn [models_store p_models p_name p_url p_credential_path pv_models].
  by rewrite lookup_last.
Qed.

(** C5.  When a list of models, or of providers, has several entries with
    the same name (and every entry is otherwise valid), construction
    succeeds and the resulting dictionary has exactly one entry for that
    name, whose value is the configuration built from the last entry with
    that name. *)
Theorem duplicate_names_last_wins :
  (forall (h : heap) (kvs : list (string * yaml)) (pre post : list yaml)
          (e : yaml) (n : string),
     cls_ok h ->
     valid_provider (YMap kvs) = true ->
     assoc "models" kvs = Some (YList (pre ++ e :: post)) ->
     str_name e = Some n ->
     Forall (fun x => str_name x <> Some n) post ->
     exists pc h' md v,
       ProviderConfig_init (YMap kvs) h = (Ok pc, h') /\
       models_store h' !! p_models pc = Some md /\
       dict_count (YStr n) md = 1 /\
       dict_lookup (YStr n) md = Some v /\
       ModelConfig_init e = Ok v) /\
  (forall (h : heap) (pre post : list yaml) (e : yaml) (n : string),
     cls_ok h ->
     forallb valid_provider (pre ++ e :: post) = true ->
     str_name e = Some n ->
     Forall (fun x => str_name x <> Some n) post ->
     exists llm h' pd pc,
       LLMConfig_init (YList (pre ++ e :: post)) h = (Ok llm, h') /\
       providers_store h' !! llm_providers llm = Some pd /\
       dict_count (YStr n) pd = 1 /\
       dict_lookup (YStr n) pd = Some pc /\
       forall h0, cls_ok h0 ->
         exists pc0 h0',
           ProviderConfig_init e h0 = (Ok pc0, h0') /\
           provider_view (models_store h0') pc0 =
           provider_view (models_store h') pc).
Proof.
  split.
  - intros h kvs pre post e n Hcls Hvalid Hms Hn Hpost.
    pose proof (valid_provider_models _ _ Hvalid Hms) as Hitems.
    destruct (provider_entry_valid _ Hvalid) as (s & pv & _ & _ & Hview & Hmodels).
    rewrite Hms in Hmodels.
    destruct (ProviderConfig_init_view _ h pv Hcls Hview) as (pc & h' & Hrun & Hmd & _).
    apply valid_models_keyed in Hitems as Hkeyed.
    assert (valid_model e = true) as He.
    { rewrite forallb_app in Hitems. apply andb_prop in Hitems as [_ Hitems].
      cbn [forallb] in Hitems. by apply andb_prop in Hitems as [? _]. }
    destruct (model_entry_valid e He) as (s' & v & Hs' & Hentry & Hinit).
    assert (s' = n) as -> by congruence.
    pose proof (dict_fill_last model_entry pre post e [] n v Hkeyed Hentry Hpost) as Hlast.
    exists pc, h', (pv_models pv), v. rewrite Hmodels.
    split; [done|]. split; [by rewrite <- Hmodels|].
    split; [|done].
    apply dict_lookup_count in Hlast as Hge.
    pose proof (dict_fill_count model_entry (pre ++ e :: post) [] (YStr n) Hkeyed) as Hle.
    cbn [dict_count] in Hle. lia.
  - intros h pre post e n Hcls Hvalid Hn Hpost.
    apply valid_providers_keyed in Hvalid as Hkeyed.
    assert (valid_provider e = true) as He.
    { rewrite forallb_app in Hvalid. apply andb_prop in Hvalid as [_ Hvalid].
      cbn [forallb] in Hvalid. by apply andb_prop in Hvalid as [? _]. }
    destruct (provider_entry_valid e He) as (s' & pv & Hs' & Hentry & Hview & _).
    assert (s' = n) as -> by congruence.
    pose proof (dict_fill_last (provider_entry []) pre post e [] n pv
                  Hkeyed Hentry Hpost) as Hlast.
    destruct (LLMConfig_init_spec (YList (pre ++ e :: post)) h Hcls)
      as (ds & pd & Hrun & _ & Hpd).
    assert (LLMConfig_denote [] [] (YList (pre ++ e :: post)) =
            dict_fill (provider_entry []) (pre ++ e :: post) []) as Hden.
    { unfold LLMConfig_denote, LLMConfig_no_providers.
      cbn [is_None py_len py_iter result_bind]. by destruct pre. }
    rewrite Hden in Hrun, Hpd.
    rewrite (dict_fill_ok _ _ _ Hkeyed) in Hrun.
    rewrite <- Hpd, dict_lookup_providers_view in Hlast.
    destruct (dict_lookup (YStr n) pd) as [pc|] eqn:Hpc; [|done].
    injection Hlast as Hlast.
    eexists _, _, pd, pc. split; [exact Hrun|].
    cbn [llm_providers providers_store models_store].
    split; [by rewrite lookup_last|]. split; [|split; [done|]].
    + apply dict_lookup_count in Hpc as Hge.
      pose proof (dict_fill_count (provider_entry []) (pre ++ e :: post) []
                    (YStr n) Hkeyed) as Hle.
      rewrite <- Hpd, dict_count_providers_view in Hle. cbn [dict_count] in Hle. lia.
    + intros h0 Hcls0.
      destruct (ProviderConfig_init_view e h0 pv Hcls0 Hview) as (pc0 & h0' & Hrun0 & _ & Hv0).
      exists pc0, h0'. split; [done|]. congruence.
Qed.

(** ** The conversation cache *)

(** C6.  A [conversation_cache] section whose [type] is ["redis"] and which
    has no [redis] block is rejected with the missing-redis-config error; one
    whose [type] is ["memory"] and which has no [memory] block is rejected
    with the missing-memory-config error; with any other [type], or without
    one, the section is accepted and has no backing sub-config. *)
Theorem conversation_cache_type_needs_block (kvs : list (string * yaml)) :
  (default YNull (assoc "type" kvs) = YStr "redis" ->
   is_None (default YNull (assoc "redis" kvs)) = true ->
   ConversationCacheConfig_init (YMap kvs) =
   Raise (Exception "redis config is missing" None)) /\
  (default YNull (assoc "type" kvs) = YStr "memory" ->
   is_None (default YNull (assoc "memory" kvs)) = true ->
   ConversationCacheConfig_init (YMap kvs) =
   Raise (Exception "memory config is missing" None)) /\
  (default YNull (assoc "type" kvs) <> YStr "redis" ->
   default YNull (assoc "type" kvs) <> YStr "memory" ->
   ConversationCacheConfig_init (YMap kvs) =
   Ok (mkConversationCacheConfig (default YNull (assoc "type" kvs)) None None)).
Proof.
  unfold ConversationCacheConfig_init. cbn [is_None py_get result_bind].
  repeat split.
  - intros -> ->. done.
  - intros -> ->. done.
  - intros Hr Hm. destruct (default YNull (assoc "type" kvs)) as [| | |s| |]; try done.
    unfold eq_str.
    destruct (String.eqb_spec s "redis") as [->|_]; [done|].
    destruct (String.eqb_spec s "memory") as [->|_]; done.
Qed.

(** ** [OLSConfig.__init__] and the checks of [validate] *)

Lemma OLSConfig_init_mapping (kvs : list (string * yaml)) (ols : OLSConfig) :
  OLSConfig_init (YMap kvs) = Ok ols ->
  exists cc lg, ols_conversation_cache ols = Some cc /\
                ols_logger_config ols = Some lg.
Proof.
  unfold OLSConfig_init. cbn [is_None py_get result_bind].
  destruct (ConversationCacheConfig_init _) as [cc|e]; [|done].
  cbn [result_bind]. destruct (LoggerConfig_init _) as [lg|e]; [|done].
  cbn [result_bind]. intros [= <-]. by exists cc, lg.
Qed.

(** What [Config(data)] has done when it returns for a document that is
    not [None]. *)
Lemma Config_init_ok (data : yaml) (h h' : heap) (c : Config) :
  is_None data = false ->
  Config_init data h = (Ok c, h') ->
  exists llm ols_data ols,
    llm_config c = Some llm /\ ols_config c = Some ols /\
    py_get data "ols_config" YNull = Ok ols_data /\
    OLSConfig_init ols_data = Ok ols.
Proof.
  unfold Config_init. intros ->. rewrite bind_lift.
  destruct (py_get data "llm_providers" YNull) as [llm_data|e]; [|done].
  unfold bind at 1. destruct (LLMConfig_init llm_data h) as [[llm|e] h1]; [|done].
  rewrite bind_lift.
  destruct (py_get data "ols_config" YNull) as [ols_data|e]; [|done].
  rewrite bind_lift. destruct (OLSConfig_init ols_data) as [ols|e] eqn:E; [|done].
  intros [= <- <-]. by exists llm, ols_data, ols.
Qed.

(** C9.  When the [ols_config] section of the document is a mapping, even
    an empty one, the [OLSConfig] that is built has a conversation cache and
    a logger configuration that are not [None]; so, in a configuration that
    has been built, the conversation-cache check and the logger-config check
    of [validate] find [None] only when the whole section is absent. *)
Theorem ols_config_mapping_sections (data : yaml) (h h' : heap) (c : Config) :
  Config_init data h = (Ok c, h') ->
  (forall kvs,
     py_get data "ols_config" YNull = Ok (YMap kvs) ->
     exists ols cc lg,
       ols_config c = Some ols /\
       ols_conversation_cache ols = Some cc /\
       ols_logger_config ols = Some lg) /\
  (forall ols,
     ols_config c = Some ols ->
     ols_conversation_cache ols = None \/ ols_logger_config ols = None ->
     py_get data "ols_config" YNull = Ok YNull) /\
  (validate c h' = Raise (Exception "conversation cache is not set" None) \/
   validate c h' = Raise (Exception "logger config is not set" None) ->
   py_get data "ols_config" YNull = Ok YNull).
Proof.
  intros Hinit.
  destruct (is_None data) eqn:Hdata.
  { unfold Config_init in Hinit. rewrite Hdata in Hinit. injection Hinit as <- <-.
    destruct data; try done. repeat split; try done. by intros [|]. }
  destruct (Config_init_ok _ _ _ _ Hdata Hinit)
    as (llm & ols_data & ols & Hllm & Hols & Hget & Hbuild).
  assert (Hsect : forall ols',
             ols_config c = Some ols' ->
             ols_conversation_cache ols' = None \/ ols_logger_config ols' = None ->
             py_get data "ols_config" YNull = Ok YNull).
  { intros ols' Hols' Hnone. assert (ols' = ols) as -> by congruence.
    rewrite Hget. destruct ols_data as [| | | | |kvs]; try done.
    destruct (OLSConfig_init_mapping kvs ols Hbuild) as (cc & lg & Hcc & Hlg).
    destruct Hnone; congruence. }
  split; [|split; [done|]].
  - intros kvs Hkvs. rewrite Hget in Hkvs. injection Hkvs as ->.
    destruct (OLSConfig_init_mapping kvs ols Hbuild) as (cc & lg & Hcc & Hlg).
    by exists ols, cc, lg.
  - intros Hval. apply (Hsect ols Hols).
    unfold validate in Hval. rewrite Hllm, Hols in Hval.
    destruct (Nat.eqb _ 0); [by destruct Hval|].
    destruct (is_None (ols_default_model ols)); [by destruct Hval|].
    destruct (is_None (ols_classifier_model ols)); [by destruct Hval|].
    destruct (ols_conversation_cache ols); [|by left].
    destruct (ols_logger_config ols); [|by right].
    by destruct Hval.
Qed.

(** ** The exceptions of a load *)

Lemma for_each_error {A} (P : error -> Prop) (body : A -> M unit) (xs : list A) :
  (forall x h e h', body x h = (Raise e, h') -> P e) ->
  forall h e h', for_each xs body h = (Raise e, h') -> P e.
Proof.
  intros Hbody. induction xs as [|x xs IH]; intros h e h'; [done|].
  cbn [for_each]. unfold bind.
  destruct (body x h) as [[[]|e1] h1] eqn:E.
  - apply IH.
  - intros [= <- <-]. by apply (Hbody x h e1 h1).
Qed.

Lemma dict_fill_error {V} (P : error -> Prop) (entry : yaml -> result (yaml * V))
    (items : list yaml) :
  (forall x e, entry x = Raise e -> P e) ->
  forall d e, fst (dict_fill entry items d) = Raise e -> P e.
Proof.
  intros Hentry. induction items as [|x items IH]; intros d e; [done|].
  cbn [dict_fill]. destruct (entry x) as [[k v]|e1] eqn:E; [apply IH|].
  intros [= <-]. by apply (Hentry x).
Qed.

Lemma py_get_error (data : yaml) (k : string) (dflt : yaml) (e : error) :
  py_get data k dflt = Raise e -> e = AttributeError "get".
Proof. destruct data; try done; by intros [= <-]. Qed.

Lemma model_entry_error (m : yaml) (e : error) :
  model_entry m = Raise e -> model_config_missing e = false.
Proof.
  unfold model_entry. destruct m as [| | | | |kvs]; try by intros [= <-].
  cbn [py_get py_getitem result_bind ModelConfig_init is_None].
  destruct (assoc "name" kvs) as [name|]; cbn [from_option id is_None];
    [|by intros [= <-]].
  destruct (is_None name); [by intros [= <-]|].
  cbn [result_bind]. destruct (hashable name); [done|by intros [= <-]].
Qed.

Lemma ProviderConfig_head_error (data : yaml) (e : error) :
  ProviderConfig_head data = Raise e -> model_config_missing e = false.
Proof.
  unfold ProviderConfig_head, ProviderConfig_no_models.
  destruct data as [| | | | |kvs]; try by intros [= <-].
  cbn [py_get py_getitem result_bind].
  destruct (assoc "models" kvs) as [ms|]; cbn [from_option id is_None].
  2:{ destruct (assoc "name" kvs); by intros [= <-]. }
  destruct (is_None ms).
  { cbn [result_bind]. destruct (assoc "name" kvs); by intros [= <-]. }
  destruct ms as [| | |s|items|kvs']; cbn [py_len result_bind];
    try by intros [= <-].
  - destruct (Nat.eqb _ 0); cbn [result_bind py_iter]; [|done].
    destruct (assoc "name" kvs); by intros [= <-].
  - destruct (Nat.eqb _ 0); cbn [result_bind py_iter]; [|done].
    destruct (assoc "name" kvs); by intros [= <-].
  - destruct (Nat.eqb _ 0); cbn [result_bind py_iter]; [|done].
    destruct (assoc "name" kvs); by intros [= <-].
Qed.

Lemma ProviderConfig_denote_error (d0 : dict ModelConfig) (data : yaml) (e : error) :
  fst (ProviderConfig_denote d0 data) = Raise e -> model_config_missing e = false.
Proof.
  unfold ProviderConfig_denote. destruct (is_None data); [done|].
  destruct (ProviderConfig_head data) as [[[[n u] c] items]|e1] eqn:Hhead.
  - pose proof (dict_fill_error (fun e => model_config_missing e = false)
                  model_entry items model_entry_error d0 e) as Hfill.
    destruct (dict_fill model_entry items d0) as [[[]|e1] d]; cbn [fst] in *;
      [discriminate|].
    intros [= <-]. by apply Hfill.
  - cbn [fst]. intros [= <-]. by apply (ProviderConfig_head_error data).
Qed.

Lemma LLMConfig_providers_body_error (l : loc) (p : yaml) (h : heap) (e : error)
    (h' : heap) :
  LLMConfig_providers_body l p h = (Raise e, h') -> model_config_missing e = false.
Proof.
  rewrite LLMConfig_providers_body_spec. cbn zeta.
  destruct p as [| | | | |kvs]; try by intros [= <- _].
  cbn [py_get py_getitem].
  destruct (assoc "name" kvs) as [name|]; cbn [from_option id is_None];
    [|by intros [= <- _]].
  destruct (is_None name); [by intros [= <- _]|].
  destruct (fst (ProviderConfig_denote _ (YMap kvs))) as [[[n u] c]|e1] eqn:Hden.
  - destruct (hashable name); [done|by intros [= <- _]].
  - intros [= <- _]. by apply ProviderConfig_denote_error in Hden.
Qed.

Lemma LLMConfig_init_error (data : yaml) (h h' : heap) (e : error) :
  LLMConfig_init data h = (Raise e, h') -> model_config_missing e = false.
Proof.
  unfold LLMConfig_init. unfold bind at 1. unfold BaseModel_init_providers.
  rewrite bind_lift.
  destruct (LLMConfig_no_providers data) as [[|]|e1] eqn:Hno.
  - by intros [= <- _].
  - rewrite bind_lift. destruct (py_iter data) as [items|e1] eqn:Hiter.
    + unfold bind. destruct (for_each items _ _) as [[[]|e1] h1] eqn:Hloop; [done|].
      intros [= <- _].
      by apply (for_each_error (fun e => model_config_missing e = false) _ _
                  (LLMConfig_providers_body_error _)) in Hloop.
    + intros [= <- _]. by destruct data.
  - intros [= <- _]. unfold LLMConfig_no_providers in Hno.
    destruct data; try done; by injection Hno as <-.
Qed.

Lemma OLSConfig_init_error (data : yaml) (e : error) :
  OLSConfig_init data = Raise e -> model_config_missing e = false.
Proof.
  unfold OLSConfig_init, ConversationCacheConfig_init, LoggerConfig_init,
    RedisConfig_init, MemoryConfig_init.
  destruct data as [| | | | |kvs]; try by intros [= <-].
  cbn [is_None py_get result_bind].
  destruct (default YNull (assoc "conversation_cache" kvs)) as [| | | | |cc];
    cbn [is_None py_get result_bind]; try by intros [= <-].
  - destruct (default YNull (assoc "logger_config" kvs)); by intros [= <-].
  - destruct (eq_str _ "redis"); [|destruct (eq_str _ "memory")].
    + destruct (default YNull (assoc "redis" cc));
        cbn [is_None py_get result_bind]; try by intros [= <-].
      destruct (default YNull (assoc "logger_config" kvs)); by intros [= <-].
    + destruct (default YNull (assoc "memory" cc));
        cbn [is_None py_get result_bind]; try by intros [= <-].
      destruct (default YNull (assoc "logger_config" kvs)); by intros [= <-].
    + cbn [result_bind].
      destruct (default YNull (assoc "logger_config" kvs)); by intros [= <-].
Qed.

Lemma Config_init_error (data : yaml) (h h' : heap) (e : error) :
  Config_init data h = (Raise e, h') -> model_config_missing e = false.
Proof.
  unfold Config_init. destruct (is_None data); [done|]. rewrite bind_lift.
  destruct (py_get data "llm_providers" YNull) as [llm_data|e1] eqn:Hget.
  2:{ intros [= <- _]. by apply py_get_error in Hget as ->. }
  unfold bind at 1.
  destruct (LLMConfig_init llm_data h) as [[llm|e1] h1] eqn:Hllm.
  2:{ intros [= <- _]. by apply LLMConfig_init_error in Hllm. }
  rewrite bind_lift.
  destruct (py_get data "ols_config" YNull) as [ols_data|e1] eqn:Hget'.
  2:{ intros [= <- _]. by apply py_get_error in Hget' as ->. }
  rewrite bind_lift. destruct (OLSConfig_init ols_data) as [ols|e1] eqn:Hols; [done|].
  intros [= <- _]. by apply OLSConfig_init_error in Hols.
Qed.

(** C10.  [ModelConfig(None)] raises, and what it raises is the [TypeError]
    of subscripting [None], which evaluating the message runs into; no call
    of [ModelConfig] raises the missing-model-config message.  In a load the
    branch is not reached: the loop over the models reads [name] from the
    entry before it constructs the model, so a null entry stops there, the
    data a model is constructed from is never [None], and no construction of
    a configuration raises either of the two exceptions. *)
Theorem model_config_missing_unreachable :
  ModelConfig_init YNull =
  Raise (TypeError "'NoneType' object is not subscriptable") /\
  (forall data arg,
     ModelConfig_init data <>
     Raise (Exception "model config is missing for model " arg)) /\
  (forall l h,
     ProviderConfig_models_body l YNull h = (Raise (AttributeError "get"), h)) /\
  (forall m name,
     py_get m "name" YNull = Ok name -> is_None m = false) /\
  (forall doc h e h',
     Config_init doc h = (Raise e, h') -> model_config_missing e = false).
Proof.
  split; [done|]. split; [|split; [done|split]].
  - intros data arg. unfold ModelConfig_init.
    destruct data as [| | | | |kvs]; done.
  - intros m name. by destruct m.
  - intros doc h e h'. apply Config_init_error.
Qed.

(** ** [validate] *)

(** [OLSConfig.__init__] has no assignment to [classifier_model]. *)
Lemma OLSConfig_init_classifier_model (data : yaml) (ols : OLSConfig) :
  OLSConfig_init data = Ok ols -> ols_classifier_model ols = YNull.
Proof.
  unfold OLSConfig_init. destruct (is_None data); [by intros [= <-]|].
  destruct (py_get data "default_model" YNull); [|done]. cbn [result_bind].
  destruct (py_get data "enable_debug_ui" (YBool false)); [|done]. cbn [result_bind].
  destruct (py_get data "conversation_cache" YNull); [|done]. cbn [result_bind].
  destruct (ConversationCacheConfig_init _); [|done]. cbn [result_bind].
  destruct (py_get data "logger_config" YNull); [|done]. cbn [result_bind].
  destruct (LoggerConfig_init _); [|done]. by intros [= <-].
Qed.

(** So [validate] accepts no configuration that [Config(data)] has built. *)
Lemma validate_Config_init (data : yaml) (h h' : heap) (c : Config) :
  Config_init data h = (Ok c, h') -> validate c h' <> Ok tt.
Proof.
  intros Hinit. destruct (is_None data) eqn:Hdata.
  { unfold Config_init in Hinit. rewrite Hdata in Hinit. by injection Hinit as <- <-. }
  destruct (Config_init_ok _ _ _ _ Hdata Hinit)
    as (llm & ols_data & ols & Hllm & Hols & _ & Hbuild).
  apply OLSConfig_init_classifier_model in Hbuild.
  unfold validate. rewrite Hllm, Hols, Hbuild.
  destruct (Nat.eqb _ 0); [done|]. by destruct (is_None (ols_default_model ols)).
Qed.

(** C1.  On the fully populated document [doc_full], [validate] raises: the
    configuration has no classifier model, although the document gives one.
    On the same document without [default_model], [validate] raises on the
    default-model check. *)
Theorem validate_full_document :
  (exists c h,
     Config_init doc_full heap0 = (Ok c, h) /\
     validate c h = Raise (Exception "classifier model is not set" None)) /\
  (exists c h,
     Config_init doc_without_default_model heap0 = (Ok c, h) /\
     validate c h = Raise (Exception "default model is not set" None)).
Proof. split; eexists _, _; split; reflexivity. Qed.

(** ** What [load_config] returns *)

Lemma dict_setitem_nonempty {V} (k : yaml) (v : V) (d : dict V) :
  dict_setitem k v d <> [].
Proof. destruct d as [|[k' v'] d]; cbn; [done|]. by destruct (key_eqb k' k). Qed.

Lemma dict_fill_nonempty {V} (entry : yaml -> result (yaml * V))
    (items : list yaml) (d : dict V) :
  d <> [] -> snd (dict_fill entry items d) <> [].
Proof.
  revert d. induction items as [|x items IH]; intros d Hd; [done|].
  cbn [dict_fill]. destruct (entry x) as [[k v]|e]; [|done].
  apply IH, dict_setitem_nonempty.
Qed.

Lemma dict_fill_ok_nonempty {V} (entry : yaml -> result (yaml * V))
    (items : list yaml) (d : dict V) (u : unit) :
  items <> [] -> fst (dict_fill entry items d) = Ok u ->
  snd (dict_fill entry items d) <> [].
Proof.
  destruct items as [|x items]; [done|]. intros _. cbn [dict_fill].
  destruct (entry x) as [[k v]|e]; [|done]. intros _.
  apply dict_fill_nonempty, dict_setitem_nonempty.
Qed.

Lemma py_len_iter (data : yaml) (n : nat) (items : list yaml) :
  py_len data = Ok n -> py_iter data = Ok items -> length items = n.
Proof.
  destruct data as [| | |s|l|kvs]; try done; cbn [py_len py_iter];
    intros [= <-] [= <-]; [|done|by rewrite length_map].
  rewrite length_map. induction s as [|a s IH]; [done|]. cbn. by rewrite IH.
Qed.

Lemma LLMConfig_denote_nonempty (d0 : dict ModelConfig) (data : yaml) (u : unit) :
  fst (LLMConfig_denote d0 [] data) = Ok u ->
  snd (LLMConfig_denote d0 [] data) <> [].
Proof.
  unfold LLMConfig_denote, LLMConfig_no_providers.
  destruct (is_None data); [done|].
  destruct (py_len data) as [n|e] eqn:Hlen; [|done]. cbn [result_bind].
  destruct (Nat.eqb_spec n 0) as [|Hn]; [done|].
  destruct (py_iter data) as [items|e] eqn:Hiter; [|done].
  apply dict_fill_ok_nonempty. intros ->.
  by apply (py_len_iter _ _ _ Hlen) in Hiter.
Qed.

(** C2, as the code has it.  [load_config] returns the configuration as
    [Config(data)] has constructed it, with no output, and does not run
    [validate].  Of the checks of [validate], construction itself ensures
    the first three for a document that is not [None]: [llm_config] is
    present, it has at least one provider, and [ols_config] is present. *)
Theorem load_config_returns_constructed (config_file : source) (h h' : heap)
    (c : Config) (out : list output) :
  cls_ok h ->
  load_config config_file h = (Returned c, out, h') ->
  exists doc,
    src_parse config_file = Ok doc /\
    Config_init doc h = (Ok c, h') /\
    out = [] /\
    (is_None doc = false ->
     exists llm ols,
       llm_config c = Some llm /\
       providers_len h' llm <> 0 /\
       ols_config c = Some ols).
Proof.
  intros Hcls Hload.
  destruct (load_config_returned _ _ _ _ _ Hload) as (doc & Hdoc & Hinit & ->).
  exists doc. repeat (split; [done|]). intros Hnone.
  destruct (Config_init_ok _ _ _ _ Hnone Hinit)
    as (llm & ols_data & ols & Hllm & Hols & _ & _).
  exists llm, ols. repeat (split; [done|]).
  destruct (Config_init_spec doc h Hcls) as (r & h1 & Hrun & _ & Hr).
  rewrite Hinit in Hrun. injection Hrun as <- <-. destruct Hr as [Hden _].
  unfold Config_denote in Hden. rewrite Hnone in Hden.
  destruct (py_get doc "llm_providers" YNull) as [llm_data|e]; [|done].
  cbn [result_bind] in Hden.
  pose proof (LLMConfig_denote_nonempty [] llm_data) as Hne.
  destruct (LLMConfig_denote [] [] llm_data) as [[[]|e] pd]; [|done].
  specialize (Hne tt eq_refl). cbn [snd] in Hne.
  destruct (py_get doc "ols_config" YNull) as [ols_data'|e]; [|done].
  cbn [result_bind] in Hden. destruct (OLSConfig_init ols_data'); [|done].
  injection Hden as Hden _. rewrite Hllm in Hden.
  cbn [option_map] in Hden. injection Hden as Hpd.
  split; [|done].
  unfold providers_len. intros Hlen. apply Hne. rewrite Hpd.
  apply nil_length_inv in Hlen. by rewrite Hlen.
Qed.

(** C2, as the specification has it, fails on [doc_providers_only]: the
    load returns a configuration, and [validate] raises on it. *)
Lemma load_config_unvalidated :
  ~ (forall c out h',
       load_config (path_object (Ok doc_providers_only)) heap0 =
       (Returned c, out, h') ->
       validate c h' = Ok tt).
Proof.
  intros H.
  destruct (load_config (path_object (Ok doc_providers_only)) heap0)
    as [[o out] h'] eqn:E.
  vm_compute in E. injection E as <- <- <-.
  specialize (H _ _ _ eq_refl). vm_compute in H. discriminate H.
Qed.

(** ** The exit contract of [load_config] *)

(** When the argument has an attribute [name], a load either returns the
    constructed configuration and prints nothing, or prints the message and
    the trace and exits with status 1. *)
Lemma load_config_exit_contract (config_file : source) (name : string) (h : heap) :
  src_name config_file = Some name ->
  (exists c h', load_config config_file h = (Returned c, [], h')) \/
  (exists e h',
     load_config config_file h =
     (Exited 1, [print_failed name e; print_traceback e], h')).
Proof.
  intros Hname. unfold load_config. rewrite Hname.
  destruct (bind (lift (src_parse config_file)) Config_init h) as [[c|e] h'].
  - left. by exists c, h'.
  - right. by exists e, h'.
Qed.

(** When it has none, a load that does not return raises
    [AttributeError] from the handler, having printed nothing. *)
Lemma load_config_without_name (config_file : source) (h : heap) :
  src_name config_file = None ->
  (exists c h', load_config config_file h = (Returned c, [], h')) \/
  (exists h',
     load_config config_file h = (Uncaught (AttributeError "name"), [], h')).
Proof.
  intros Hname. unfold load_config. rewrite Hname.
  destruct (bind (lift (src_parse config_file)) Config_init h) as [[c|e] h'].
  - left. by exists c, h'.
  - right. by exists h'.
Qed.

(** C3.  With the path of the file given as a [str], a load that fails in
    construction prints nothing and does not exit with status 1: the
    handler raises [AttributeError] when it formats its message. *)
Theorem load_config_str_path_failure :
  fst (Config_init doc_no_providers heap0) =
  Raise (Exception "no llm providers configured" None) /\
  fst (load_config (path_str (Ok doc_no_providers)) heap0) =
  (Uncaught (AttributeError "name"), []).
Proof. split; reflexivity. Qed.

(** ** Entries without a name *)

Lemma model_entry_nameless (m : yaml) :
  nameless m = true ->
  model_entry m = Raise (Exception "model name is missing" None).
Proof.
  unfold nameless, model_entry. destruct m as [| | | | |kvs]; try done.
  cbn [py_get result_bind]. by intros ->.
Qed.

Lemma LLMConfig_providers_body_nameless (l : loc) (p : yaml) (h : heap) :
  nameless p = true ->
  LLMConfig_providers_body l p h =
  (Raise (Exception "provider name is missing" None), h).
Proof.
  unfold nameless, LLMConfig_providers_body. destruct p as [| | | | |kvs]; try done.
  rewrite bind_lift. cbn [py_get]. by intros ->.
Qed.

Lemma for_each_stops {A} (pre post : list A) (x : A) (body : A -> M unit) (h : heap) :
  (forall h1, exists e h2, body x h1 = (Raise e, h2)) ->
  for_each (pre ++ x :: post) body h = for_each (pre ++ [x]) body h /\
  exists e h', for_each (pre ++ x :: post) body h = (Raise e, h').
Proof.
  intros Hx. rewrite !for_each_app.
  destruct (for_each pre body h) as [[[]|e] h1]; [|by eauto].
  cbn [for_each]. unfold bind. destruct (Hx h1) as (e & h2 & ->). by eauto.
Qed.

Lemma dict_fill_stops {V} (entry : yaml -> result (yaml * V))
    (pre post : list yaml) (x : yaml) (d : dict V) :
  (exists e, entry x = Raise e) ->
  dict_fill entry (pre ++ x :: post) d = dict_fill entry (pre ++ [x]) d /\
  exists e, fst (dict_fill entry (pre ++ x :: post) d) = Raise e.
Proof.
  intros [e Hx]. rewrite !dict_fill_app.
  destruct (dict_fill entry pre d) as [[[]|e1] d1]; [|by eauto].
  cbn [dict_fill]. rewrite Hx. by eauto.
Qed.

(** [LLMConfig(data)] for a non-empty list is its loop. *)
Lemma LLMConfig_init_list (items : list yaml) (h : heap) :
  items <> [] ->
  LLMConfig_init (YList items) h =
  match for_each items (LLMConfig_providers_body (length (providers_store h)))
          (snd (BaseModel_init_providers h)) with
  | (Ok _, h') => (Ok (mkLLMConfig (length (providers_store h))), h')
  | (Raise e, h') => (Raise e, h')
  end.
Proof.
  intros Hne. unfold LLMConfig_init. unfold bind at 1.
  unfold BaseModel_init_providers. cbn [snd]. rewrite bind_lift.
  unfold LLMConfig_no_providers. cbn [is_None py_len result_bind].
  destruct items as [|x items]; [done|]. cbn [length Nat.eqb].
  rewrite bind_lift. cbn [py_iter]. unfold bind at 1.
  by destruct (for_each _ _ _) as [[[]|e] h'].
Qed.

Lemma app_cons_nonempty {A} (pre post : list A) (x : A) : pre ++ x :: post <> [].
Proof. by destruct pre. Qed.

Lemma LLMConfig_init_stops (pre post : list yaml) (x : yaml) (h : heap) :
  (forall l h1, exists e h2, LLMConfig_providers_body l x h1 = (Raise e, h2)) ->
  LLMConfig_init (YList (pre ++ x :: post)) h =
  LLMConfig_init (YList (pre ++ [x])) h /\
  exists e, fst (LLMConfig_init (YList (pre ++ x :: post)) h) = Raise e.
Proof.
  intros Hx. rewrite !LLMConfig_init_list by apply app_cons_nonempty.
  destruct (for_each_stops pre post x
              (LLMConfig_providers_body (length (providers_store h)))
              (snd (BaseModel_init_providers h)) (Hx _)) as [Heq (e & h' & Hrun)].
  rewrite <- Heq, Hrun. split; [done|by exists e].
Qed.

Lemma ProviderConfig_head_models (kvs : list (string * yaml)) (items : list yaml) :
  assoc "models" kvs = Some (YList items) ->
  items <> [] ->
  ProviderConfig_head (YMap kvs) =
  Ok (default YNull (assoc "name" kvs), default YNull (assoc "url" kvs),
      default YNull (assoc "credential_path" kvs), items).
Proof.
  intros Hms Hne. unfold ProviderConfig_head, ProviderConfig_no_models.
  cbn [py_get py_getitem result_bind]. rewrite Hms.
  cbn [from_option id is_None result_bind py_len py_iter].
  by destruct items.
Qed.

Lemma ProviderConfig_denote_stops (d0 : dict ModelConfig)
    (kvs kvs' : list (string * yaml)) (pre post : list yaml) (bad : yaml) :
  nameless bad = true ->
  assoc "models" kvs = Some (YList (pre ++ bad :: post)) ->
  assoc "models" kvs' = Some (YList (pre ++ [bad])) ->
  (forall k, k <> "models" -> assoc k kvs' = assoc k kvs) ->
  ProviderConfig_denote d0 (YMap kvs) = ProviderConfig_denote d0 (YMap kvs') /\
  (exists e, fst (ProviderConfig_denote d0 (YMap kvs)) = Raise e) /\
  (forallb valid_model pre = true ->
   fst (ProviderConfig_denote d0 (YMap kvs)) =
   Raise (Exception "model name is missing" None)).
Proof.
  intros Hbad Hms Hms' Hsame. unfold ProviderConfig_denote. cbn [is_None].
  rewrite (ProviderConfig_head_models kvs _ Hms) by apply app_cons_nonempty.
  rewrite (ProviderConfig_head_models kvs' _ Hms') by apply app_cons_nonempty.
  rewrite !Hsame by done.
  pose proof (model_entry_nameless bad Hbad) as Hentry.
  destruct (dict_fill_stops model_entry pre post bad d0) as [-> [e He]]; [by eauto|].
  split; [done|]. clear e He. split.
  - rewrite dict_fill_app. destruct (dict_fill model_entry pre d0) as [[[]|e1] d1].
    + cbn [dict_fill]. rewrite Hentry. by eauto.
    + by eauto.
  - intros Hpre. apply valid_models_keyed in Hpre.
    rewrite dict_fill_app.
    pose proof (dict_fill_ok model_entry pre d0 Hpre) as Hok.
    destruct (dict_fill model_entry pre d0) as [[[]|e1] d1]; [|done].
    cbn [dict_fill]. by rewrite Hentry.
Qed.

Lemma assoc_cons_ne (k k' : string) (v : yaml) (kvs : list (string * yaml)) :
  k <> k' -> assoc k ((k', v) :: kvs) = assoc k kvs.
Proof. intros Hne. cbn [assoc]. by destruct (String.eqb_spec k' k). Qed.

Lemma ProviderConfig_denote_fails (d0 : dict ModelConfig)
    (kvs : list (string * yaml)) (pre post : list yaml) (bad : yaml) :
  nameless bad = true ->
  assoc "models" kvs = Some (YList (pre ++ bad :: post)) ->
  exists e, fst (ProviderConfig_denote d0 (YMap kvs)) = Raise e.
Proof.
  intros Hbad Hms.
  apply (ProviderConfig_denote_stops d0 kvs
           (("models", YList (pre ++ [bad])) :: kvs) pre post bad); try done.
  intros k Hk. by apply assoc_cons_ne.
Qed.

Lemma LLMConfig_providers_body_fails (l : loc) (kvs : list (string * yaml))
    (pre post : list yaml) (bad : yaml) (h : heap) :
  nameless bad = true ->
  assoc "models" kvs = Some (YList (pre ++ bad :: post)) ->
  exists e h', LLMConfig_providers_body l (YMap kvs) h = (Raise e, h').
Proof.
  intros Hbad Hms. rewrite LLMConfig_providers_body_spec. cbn zeta.
  cbn [py_get]. destruct (is_None _); [by eauto|].
  destruct (ProviderConfig_denote_fails
              (default [] (models_store h !! ProviderConfig_models))
              kvs pre post bad Hbad Hms) as [e ->].
  by eauto.
Qed.

Lemma Config_init_llm_error (kvs : list (string * yaml)) (llm_data : yaml)
    (h h' : heap) (e : error) :
  assoc "llm_providers" kvs = Some llm_data ->
  LLMConfig_init llm_data h = (Raise e, h') ->
  Config_init (YMap kvs) h = (Raise e, h').
Proof.
  intros Hget Hllm. unfold Config_init. cbn [is_None]. rewrite bind_lift.
  cbn [py_get]. rewrite Hget. cbn [from_option id]. unfold bind at 1.
  by rewrite Hllm.
Qed.

(** C7, as the code has it.  When an entry of the list of providers, or of
    a list of models, is a mapping without a non-null [name], construction
    fails, and it fails without processing any entry after that one: the
    outcome and the store are those of the list cut after the entry.  The
    exception is the missing-name error when the entries before it are
    valid; otherwise it is the exception of the first entry that fails.  A
    failure of the list of providers is the failure of the whole
    construction. *)
Theorem missing_name_fails_fast :
  (forall (h : heap) (pre post : list yaml) (bad : yaml),
     nameless bad = true ->
     (exists e, fst (LLMConfig_init (YList (pre ++ bad :: post)) h) = Raise e) /\
     LLMConfig_init (YList (pre ++ bad :: post)) h =
     LLMConfig_init (YList (pre ++ [bad])) h /\
     (cls_ok h -> forallb valid_provider pre = true ->
      fst (LLMConfig_init (YList (pre ++ bad :: post)) h) =
      Raise (Exception "provider name is missing" None))) /\
  (forall (h : heap) (kvs kvs' : list (string * yaml)) (pre post : list yaml)
          (bad : yaml),
     nameless bad = true ->
     assoc "models" kvs = Some (YList (pre ++ bad :: post)) ->
     assoc "models" kvs' = Some (YList (pre ++ [bad])) ->
     (forall k, k <> "models" -> assoc k kvs' = assoc k kvs) ->
     (exists e, fst (ProviderConfig_init (YMap kvs) h) = Raise e) /\
     ProviderConfig_init (YMap kvs) h = ProviderConfig_init (YMap kvs') h /\
     (forallb valid_model pre = true ->
      fst (ProviderConfig_init (YMap kvs) h) =
      Raise (Exception "model name is missing" None)) /\
     (forall ppre ppost,
        (exists e,
           fst (LLMConfig_init (YList (ppre ++ YMap kvs :: ppost)) h) = Raise e) /\
        LLMConfig_init (YList (ppre ++ YMap kvs :: ppost)) h =
        LLMConfig_init (YList (ppre ++ [YMap kvs])) h)) /\
  (forall (h h' : heap) (kvs : list (string * yaml)) (llm_data : yaml) (e : error),
     assoc "llm_providers" kvs = Some llm_data ->
     LLMConfig_init llm_data h = (Raise e, h') ->
     Config_init (YMap kvs) h = (Raise e, h')).
Proof.
  split; [|split].
  - intros h pre post bad Hbad.
    destruct (LLMConfig_init_stops pre post bad h) as [Heq Hfail].
    { intros l h1. rewrite LLMConfig_providers_body_nameless by done. by eauto. }
    split; [done|]. split; [done|]. intros [Hms Hps] Hpre.
    rewrite LLMConfig_init_list by apply app_cons_nonempty.
    unfold BaseModel_init_providers. rewrite Hps. cbn [snd from_option id].
    destruct h as [ms ps]. cbn [models_store providers_store] in *.
    destruct (LLMConfig_providers_loop [] pre ms ps [])
      as (ds & pd & Hrun & _ & _); [done|constructor|].
    rewrite for_each_app, Hrun. apply valid_providers_keyed in Hpre.
    cbn [providers_view map].
    rewrite (dict_fill_ok _ _ _ Hpre). cbn [for_each]. unfold bind.
    by rewrite LLMConfig_providers_body_nameless.
  - intros h kvs kvs' pre post bad Hbad Hms Hms' Hsame.
    rewrite !ProviderConfig_init_spec. cbn zeta.
    destruct (ProviderConfig_denote_stops
                (default [] (models_store h !! ProviderConfig_models))
                kvs kvs' pre post bad Hbad Hms Hms' Hsame) as (Heq & [e He] & Hname).
    split; [|split; [|split]].
    + exists e. cbn [fst]. by rewrite He.
    + by rewrite Heq.
    + intros Hpre. cbn [fst]. by rewrite (Hname Hpre).
    + intros ppre ppost.
      destruct (LLMConfig_init_stops ppre ppost (YMap kvs) h) as [Heq' Hfail]; [|done].
      intros l h1. by apply (LLMConfig_providers_body_fails l kvs pre post bad).
  - intros h h' kvs llm_data e. apply Config_init_llm_error.
Qed.

(** ** The theorems on the example documents *)

Lemma load_config_provider_keys_witness :
  cls_ok heap0 /\
  valid_doc doc_full = true /\
  exists c llm pd h',
    load_config (path_object (Ok doc_full)) heap0 = (Returned c, [], h') /\
    llm_config c = Some llm /\
    providers_store h' !! llm_providers llm = Some pd /\
    forall k, In k (dict_keys pd) <->
              exists p, In p (provider_entries doc_full) /\
                        py_getitem p "name" = Ok k.
Proof.
  split; [split; reflexivity|]. split; [reflexivity|].
  apply (load_config_provider_keys (path_object (Ok doc_full)) doc_full heap0);
    [split; reflexivity|reflexivity|reflexivity].
Defined.

Lemma load_config_twice_witness :
  exists c1 h1,
    load_config (path_object (Ok doc_full)) heap0 = (Returned c1, [], h1) /\
    exists doc c2 h2,
      src_parse (path_object (Ok doc_full)) = Ok doc /\
      load_config (path_object (Ok doc_full)) h1 = (Returned c2, [], h2) /\
      config_view h2 c2 = config_view h1 c1 /\
      Config_denote doc = Ok (config_view h2 c2) /\
      config_view h2 c1 = config_view h1 c1 /\
      cls_ok h2.
Proof.
  eexists _, _. split; [reflexivity|].
  apply (load_config_twice (path_object (Ok doc_full)) heap0 _ _ []);
    [split; reflexivity|reflexivity].
Defined.

Lemma load_config_returns_constructed_witness :
  exists c h',
    load_config (path_object (Ok doc_providers_only)) heap0 = (Returned c, [], h') /\
    exists doc,
      src_parse (path_object (Ok doc_providers_only)) = Ok doc /\
      Config_init doc heap0 = (Ok c, h') /\
      @nil output = [] /\
      (is_None doc = false ->
       exists llm ols,
         llm_config c = Some llm /\
         providers_len h' llm <> 0 /\
         ols_config c = Some ols).
Proof.
  eexists _, _. split; [reflexivity|].
  apply (load_config_returns_constructed
           (path_object (Ok doc_providers_only)) heap0 _ _ []);
    [split; reflexivity|reflexivity].
Defined.

Lemma duplicate_names_last_wins_witness :
  (exists pc h' md v,
     ProviderConfig_init (YMap provider_dup_models) heap0 = (Ok pc, h') /\
     models_store h' !! p_models pc = Some md /\
     dict_count (YStr "gpt-4") md = 1 /\
     dict_lookup (YStr "gpt-4") md = Some v /\
     ModelConfig_init model_gpt4_b = Ok v) /\
  (exists llm h' pd pc,
     LLMConfig_init (YList [provider_openai_a; provider_openai_b]) heap0 =
     (Ok llm, h') /\
     providers_store h' !! llm_providers llm = Some pd /\
     dict_count (YStr "openai") pd = 1 /\
     dict_lookup (YStr "openai") pd = Some pc /\
     forall h0, cls_ok h0 ->
       exists pc0 h0',
         ProviderConfig_init provider_openai_b h0 = (Ok pc0, h0') /\
         provider_view (models_store h0') pc0 =
         provider_view (models_store h') pc).
Proof.
  destruct duplicate_names_last_wins as [Hmodels Hproviders]. split.
  - apply (Hmodels heap0 provider_dup_models [model_gpt4_a; model_gpt3] []
             model_gpt4_b "gpt-4");
      [split; reflexivity|reflexivity|reflexivity|reflexivity|constructor].
  - apply (Hproviders heap0 [provider_openai_a] [] provider_openai_b "openai");
      [split; reflexivity|reflexivity|reflexivity|constructor].
Defined.

Lemma conversation_cache_type_needs_block_witness :
  ConversationCacheConfig_init (YMap [("type", YStr "redis")]) =
  Raise (Exception "redis config is missing" None) /\
  ConversationCacheConfig_init (YMap [("type", YStr "memory"); ("redis", YMap [])]) =
  Raise (Exception "memory config is missing" None) /\
  ConversationCacheConfig_init (YMap [("type", YStr "disk")]) =
  Ok (mkConversationCacheConfig (YStr "disk") None None) /\
  ConversationCacheConfig_init (YMap []) =
  Ok (mkConversationCacheConfig YNull None None).
Proof.
  split; [|split; [|split]].
  - apply (proj1 (conversation_cache_type_needs_block [("type", YStr "redis")]));
      reflexivity.
  - apply (proj1 (proj2 (conversation_cache_type_needs_block
                           [("type", YStr "memory"); ("redis", YMap [])])));
      reflexivity.
  - apply (proj2 (proj2 (conversation_cache_type_needs_block [("type", YStr "disk")])));
      discriminate.
  - apply (proj2 (proj2 (conversation_cache_type_needs_block [])));
      discriminate.
Defined.

Lemma ols_config_mapping_sections_witness :
  exists c h',
    Config_init doc_empty_ols heap0 = (Ok c, h') /\
    exists ols cc lg,
      ols_config c = Some ols /\
      ols_conversation_cache ols = Some cc /\
      ols_logger_config ols = Some lg.
Proof.
  eexists _, _. split; [reflexivity|].
  apply (proj1 (ols_config_mapping_sections doc_empty_ols heap0 _ _ eq_refl) []).
  reflexivity.
Defined.

(** C7, as the specification has it, fails on [doc_nameless_second]: its
    second provider has no name, and construction fails with the error of
    the first provider, which has no models. *)
Lemma missing_name_other_error :
  In provider_no_name (provider_entries doc_nameless_second) /\
  nameless provider_no_name = true /\
  fst (Config_init doc_nameless_second heap0) =
  Raise (Exception "no models configured for provider " (Some (YStr "a"))) /\
  fst (Config_init doc_nameless_second heap0) <>
  Raise (Exception "provider name is missing" None) /\
  fst (Config_init doc_nameless_second heap0) <>
  Raise (Exception "model name is missing" None).
Proof.
  split; [cbn; tauto|]. split; [reflexivity|]. split; [reflexivity|].
  split; vm_compute; discriminate.
Qed.

Lemma missing_name_fails_fast_witness :
  fst (LLMConfig_init
         (YList [provider_openai_a; provider_no_name; provider_openai_b]) heap0) =
  Raise (Exception "provider name is missing" None) /\
  LLMConfig_init
    (YList [provider_openai_a; provider_no_name; provider_openai_b]) heap0 =
  LLMConfig_init (YList [provider_openai_a; provider_no_name]) heap0 /\
  fst (ProviderConfig_init
         (YMap [("name", YStr "openai");
                ("models", YList [model_gpt3; model_no_name; model_gpt4_a])])
         heap0) =
  Raise (Exception "model name is missing" None).
Proof.
  destruct missing_name_fails_fast as (Hproviders & Hmodels & _).
  destruct (Hproviders heap0 [provider_openai_a] [provider_openai_b]
              provider_no_name eq_refl) as (_ & Heq & Herr).
  destruct (Hmodels heap0
              [("name", YStr "openai");
               ("models", YList [model_gpt3; model_no_name; model_gpt4_a])]
              [("name", YStr "openai");
               ("models", YList [model_gpt3; model_no_name])]
              [model_gpt3] [model_gpt4_a] model_no_name
              eq_refl eq_refl eq_refl) as (_ & _ & Herr' & _).
  { intros k Hk. cbn [assoc].
    destruct (String.eqb "name" k); [reflexivity|].
    destruct (String.eqb_spec "models" k) as [E|_]; [|reflexivity].
    exfalso. apply Hk. symmetry. exact E. }
  split; [exact (Herr (conj eq_refl eq_refl) eq_refl)|].
  split; [exact Heq|exact (Herr' eq_refl)].
Defined.

Lemma model_config_missing_unreachable_witness :
  model_config_missing (Exception "no llm providers configured" None) = false.
Proof.
  destruct model_config_missing_unreachable as (_ & _ & _ & _ & Hload).
  exact (Hload doc_no_providers heap0 _ _ eq_refl).
Defined.

(** * Further properties of the loader *)

(** ** The documents a load accepts *)

Lemma dict_fill_is_ok {V} (entry : yaml -> result (yaml * V))
    (items : list yaml) (d : dict V) :
  is_ok (fst (dict_fill entry items d)) =
  forallb (fun x => is_ok (entry x)) items.
Proof.
  revert d. induction items as [|x items IH]; intros d; [done|].
  cbn [dict_fill forallb]. destruct (entry x) as [[k v]|e]; [apply IH|done].
Qed.

Lemma forallb_eq {A} (f g : A -> bool) (l : list A) :
  (forall x, f x = g x) -> forallb f l = forallb g l.
Proof. intros H. induction l as [|x l IH]; [done|]. cbn. by rewrite H, IH. Qed.

Lemma model_entry_is_ok (m : yaml) :
  is_ok (model_entry m) = constructible_model m.
Proof.
  unfold model_entry, constructible_model, constructible_name, ModelConfig_init.
  destruct m as [| | | | |kvs]; try done.
  cbn [py_get py_getitem result_bind is_None].
  destruct (assoc "name" kvs) as [name|]; cbn [from_option id is_None]; [|done].
  destruct (is_None name); [done|]. cbn [result_bind negb andb].
  by destruct (hashable name).
Qed.

Lemma forallb_model_entry_chars (s : string) (a : ascii) :
  forallb (fun x => is_ok (model_entry x))
    (map (fun c => YStr (String c EmptyString)) (list_ascii_of_string (String a s)))
  = false.
Proof. done. Qed.

Lemma provider_entry_is_ok (d0 : dict ModelConfig) (p : yaml) :
  is_ok (provider_entry d0 p) = constructible_provider p.
Proof.
  unfold provider_entry, constructible_provider, constructible_name,
    ProviderConfig_view, ProviderConfig_denote, ProviderConfig_head,
    ProviderConfig_no_models.
  destruct p as [| | | | |kvs]; try done.
  cbn [py_get py_getitem result_bind is_None].
  destruct (assoc "name" kvs) as [name|]; cbn [from_option id is_None]; [|done].
  destruct (is_None name) eqn:Hname; [done|]. cbn [negb andb].
  destruct (assoc "models" kvs) as [ms|];
    cbn [from_option id is_None result_bind]; [|by rewrite andb_false_r].
  destruct ms as [| | |s|items|kvs'];
    cbn [is_None result_bind py_len py_iter]; try by rewrite andb_false_r.
  - destruct s as [|a s]; cbn [String.length Nat.eqb result_bind];
      [by rewrite andb_false_r|].
    pose proof (dict_fill_is_ok model_entry
                  (map (fun c => YStr (String c EmptyString))
                     (list_ascii_of_string (String a s))) d0) as Hfill.
    rewrite forallb_model_entry_chars in Hfill.
    destruct (dict_fill model_entry _ d0) as [[[]|e] d]; [done|].
    by rewrite andb_false_r.
  - destruct items as [|m items]; cbn [length Nat.eqb result_bind];
      [by rewrite andb_false_r|].
    pose proof (dict_fill_is_ok model_entry (m :: items) d0) as Hfill.
    rewrite (forallb_eq _ constructible_model _ model_entry_is_ok) in Hfill.
    destruct (dict_fill model_entry (m :: items) d0) as [[[]|e] d];
      cbn [fst is_ok result_bind] in *; rewrite <- Hfill.
    + destruct (hashable name); done.
    + by rewrite andb_false_r.
  - destruct kvs' as [|[k v] kvs']; cbn [length Nat.eqb result_bind map];
      [by rewrite andb_false_r|].
    cbn [dict_fill model_entry py_get fst result_bind].
    by rewrite andb_false_r.
Qed.

Lemma LLMConfig_denote_is_ok (d0 : dict ModelConfig) (pd0 : dict ProviderView)
    (data : yaml) :
  is_ok (fst (LLMConfig_denote d0 pd0 data)) =
  match data with
  | YList (p :: ps) => forallb constructible_provider (p :: ps)
  | _ => false
  end.
Proof.
  unfold LLMConfig_denote, LLMConfig_no_providers.
  destruct data as [| | |s|items|kvs]; cbn [is_None py_len py_iter result_bind];
    try done.
  - destruct s as [|a s]; [done|]. cbn [String.length Nat.eqb].
    by rewrite dict_fill_is_ok.
  - destruct items as [|p items]; [done|]. cbn [length Nat.eqb].
    rewrite dict_fill_is_ok.
    apply forallb_eq. intros x. apply provider_entry_is_ok.
  - destruct kvs as [|[k v] kvs]; [done|]. cbn [length Nat.eqb map].
    by rewrite dict_fill_is_ok.
Qed.

Lemma ConversationCacheConfig_init_is_ok (v : yaml) :
  is_ok (ConversationCacheConfig_init v) = valid_conversation_cache v.
Proof.
  unfold ConversationCacheConfig_init, valid_conversation_cache,
    RedisConfig_init, MemoryConfig_init.
  destruct v as [| | | | |kvs]; try done.
  cbn [is_None py_get result_bind].
  destruct (eq_str _ "redis").
  { by destruct (default YNull (assoc "redis" kvs)). }
  destruct (eq_str _ "memory"); [|done].
  by destruct (default YNull (assoc "memory" kvs)).
Qed.

Lemma LoggerConfig_init_is_ok (v : yaml) :
  is_ok (LoggerConfig_init v) = optional_mapping v.
Proof. by destruct v. Qed.

Lemma OLSConfig_init_is_ok (v : yaml) :
  is_ok (OLSConfig_init v) = valid_ols_config v.
Proof.
  unfold OLSConfig_init, valid_ols_config.
  destruct v as [| | | | |kvs]; try done.
  cbn [is_None py_get result_bind].
  rewrite <- ConversationCacheConfig_init_is_ok, <- LoggerConfig_init_is_ok.
  destruct (ConversationCacheConfig_init _) as [cc|e]; [|done].
  cbn [result_bind is_ok andb]. by destruct (LoggerConfig_init _).
Qed.

Lemma Config_denote_is_ok (doc : yaml) :
  is_ok (Config_denote doc) = constructible_doc doc.
Proof.
  unfold Config_denote, constructible_doc.
  destruct doc as [| | | | |kvs]; try done.
  cbn [is_None py_get result_bind].
  pose proof (LLMConfig_denote_is_ok [] []
                (default YNull (assoc "llm_providers" kvs))) as Hllm.
  rewrite <- OLSConfig_init_is_ok.
  destruct (LLMConfig_denote [] [] _) as [[[]|e] pd]; cbn [fst is_ok] in Hllm.
  - destruct (assoc "llm_providers" kvs) as [[| | | |[|p ps]|]|];
      cbn [from_option id] in Hllm; try done.
    rewrite <- Hllm. by destruct (OLSConfig_init _).
  - destruct (assoc "llm_providers" kvs) as [[| | | |[|p ps]|]|];
      cbn [from_option id] in Hllm; try done.
    by rewrite <- Hllm.
Qed.

(** [Config(data)] returns exactly when [Config_denote data] is a value. *)
Lemma Config_init_is_ok (data : yaml) (h : heap) :
  cls_ok h -> is_ok (fst (Config_init data h)) = is_ok (Config_denote data).
Proof.
  intros Hcls. destruct (Config_init_spec data h Hcls) as (r & h' & -> & _ & Hr).
  cbn [fst]. destruct r as [c|e]; [by destruct Hr as [-> _]|by rewrite Hr].
Qed.

(** X1.  A load returns a configuration exactly for the documents of
    [constructible_doc]: the empty document, and the mappings whose
    [llm_providers] is a non-empty list of mappings, each with a [name] that
    is not null and is hashable and with a non-empty list [models] of
    mappings with such a [name], and whose [ols_config] is absent or a
    mapping with a [conversation_cache] that has the block of its type and
    sections that are absent or mappings. *)
Theorem load_config_accepts (config_file : source) (h : heap) :
  cls_ok h ->
  (exists c h', load_config config_file h = (Returned c, [], h')) <->
  (exists doc, src_parse config_file = Ok doc /\ constructible_doc doc = true).
Proof.
  intros Hcls. split.
  - intros (c & h' & Hload).
    destruct (load_config_returned _ _ _ _ _ Hload) as (doc & Hdoc & Hinit & _).
    exists doc. split; [done|].
    rewrite <- Config_denote_is_ok, <- (Config_init_is_ok doc h Hcls).
    by rewrite Hinit.
  - intros (doc & Hdoc & Hok).
    rewrite <- Config_denote_is_ok, <- (Config_init_is_ok doc h Hcls) in Hok.
    destruct (Config_init doc h) as [[c|e] h'] eqn:Hinit; [|done].
    exists c, h'. by apply (load_config_ok _ doc).
Qed.

(** ** The exceptions of a construction *)

Lemma model_entry_construction_error (m : yaml) (e : error) :
  model_entry m = Raise e -> construction_error e = true.
Proof.
  unfold model_entry. destruct m as [| | | | |kvs]; try by intros [= <-].
  cbn [py_get py_getitem result_bind ModelConfig_init is_None].
  destruct (assoc "name" kvs) as [name|]; cbn [from_option id is_None];
    [|by intros [= <-]].
  destruct (is_None name); [by intros [= <-]|].
  cbn [result_bind]. destruct (hashable name); [done|by intros [= <-]].
Qed.

Lemma ProviderConfig_head_construction_error (kvs : list (string * yaml))
    (name : yaml) (e : error) :
  assoc "name" kvs = Some name ->
  is_None name = false ->
  ProviderConfig_head (YMap kvs) = Raise e -> construction_error e = true.
Proof.
  intros Hname Hnone. unfold ProviderConfig_head, ProviderConfig_no_models.
  cbn [py_get py_getitem result_bind]. rewrite Hname.
  assert (construction_error
            (Exception "no models configured for provider " (Some name)) = true)
    as Hno by (cbn; by rewrite Hnone).
  destruct (assoc "models" kvs) as [ms|]; cbn [from_option id is_None result_bind];
    [|by intros [= <-]].
  destruct ms as [| | |s|items|kvs'];
    cbn [is_None py_len py_iter result_bind]; try by intros [= <-].
  - destruct (Nat.eqb _ 0); cbn [result_bind]; [by intros [= <-]|done].
  - destruct (Nat.eqb _ 0); cbn [result_bind]; [by intros [= <-]|done].
  - destruct (Nat.eqb _ 0); cbn [result_bind]; [by intros [= <-]|done].
Qed.

Lemma ProviderConfig_denote_construction_error (d0 : dict ModelConfig)
    (kvs : list (string * yaml)) (name : yaml) (e : error) :
  assoc "name" kvs = Some name ->
  is_None name = false ->
  fst (ProviderConfig_denote d0 (YMap kvs)) = Raise e ->
  construction_error e = true.
Proof.
  intros Hname Hnone. unfold ProviderConfig_denote. cbn [is_None].
  destruct (ProviderConfig_head (YMap kvs)) as [[[[n u] c] items]|e1] eqn:Hhead.
  - pose proof (dict_fill_error (fun e => construction_error e = true)
                  model_entry items model_entry_construction_error d0 e) as Hfill.
    destruct (dict_fill model_entry items d0) as [[[]|e1] d]; cbn [fst] in *;
      [discriminate|].
    intros [= <-]. by apply Hfill.
  - cbn [fst]. intros [= <-].
    by apply (ProviderConfig_head_construction_error kvs name).
Qed.

Lemma LLMConfig_providers_body_construction_error (l : loc) (p : yaml)
    (h : heap) (e : error) (h' : heap) :
  LLMConfig_providers_body l p h = (Raise e, h') -> construction_error e = true.
Proof.
  rewrite LLMConfig_providers_body_spec. cbn zeta.
  destruct p as [| | | | |kvs]; try by intros [= <- _].
  cbn [py_get py_getitem].
  destruct (assoc "name" kvs) as [name|] eqn:Hname; cbn [from_option id is_None];
    [|by intros [= <- _]].
  destruct (is_None name) eqn:Hnone; [by intros [= <- _]|].
  destruct (fst (ProviderConfig_denote _ (YMap kvs))) as [[[n u] c]|e1] eqn:Hden.
  - destruct (hashable name); [done|by intros [= <- _]].
  - intros [= <- _].
    by apply (ProviderConfig_denote_construction_error _ kvs name) in Hden.
Qed.

Lemma LLMConfig_init_construction_error (data : yaml) (h h' : heap) (e : error) :
  LLMConfig_init data h = (Raise e, h') -> construction_error e = true.
Proof.
  unfold LLMConfig_init. unfold bind at 1. unfold BaseModel_init_providers.
  rewrite bind_lift.
  destruct (LLMConfig_no_providers data) as [[|]|e1] eqn:Hno.
  - by intros [= <- _].
  - rewrite bind_lift. destruct (py_iter data) as [items|e1] eqn:Hiter.
    + unfold bind. destruct (for_each items _ _) as [[[]|e1] h1] eqn:Hloop; [done|].
      intros [= <- _].
      by apply (for_each_error (fun e => construction_error e = true) _ _
                  (LLMConfig_providers_body_construction_error _)) in Hloop.
    + by destruct data.
  - intros [= <- _]. unfold LLMConfig_no_providers in Hno.
    destruct data; try done; by injection Hno as <-.
Qed.

Lemma OLSConfig_init_construction_error (data : yaml) (e : error) :
  OLSConfig_init data = Raise e -> construction_error e = true.
Proof.
  unfold OLSConfig_init, ConversationCacheConfig_init, LoggerConfig_init,
    RedisConfig_init, MemoryConfig_init.
  destruct data as [| | | | |kvs]; try by intros [= <-].
  cbn [is_None py_get result_bind].
  destruct (default YNull (assoc "conversation_cache" kvs)) as [| | | | |cc];
    cbn [is_None py_get result_bind]; try by intros [= <-].
  - destruct (default YNull (assoc "logger_config" kvs)); by intros [= <-].
  - destruct (eq_str _ "redis"); [|destruct (eq_str _ "memory")].
    + destruct (default YNull (assoc "redis" cc));
        cbn [is_None py_get result_bind]; try by intros [= <-].
      destruct (default YNull (assoc "logger_config" kvs)); by intros [= <-].
    + destruct (default YNull (assoc "memory" cc));
        cbn [is_None py_get result_bind]; try by intros [= <-].
      destruct (default YNull (assoc "logger_config" kvs)); by intros [= <-].
    + cbn [result_bind].
      destruct (default YNull (assoc "logger_config" kvs)); by intros [= <-].
Qed.

(** X2.  Every exception a construction raises is one of [construction_error]:
    [AttributeError] for a value without [get], [TypeError] for a value
    without a length or for an unhashable name, or one of the messages of
    the constructors, the one on missing models carrying a name that is not
    [None].  A construction raises no [KeyError]. *)
Theorem Config_init_raises (data : yaml) (h h' : heap) (e : error) :
  Config_init data h = (Raise e, h') -> construction_error e = true.
Proof.
  unfold Config_init. destruct (is_None data); [done|]. rewrite bind_lift.
  destruct (py_get data "llm_providers" YNull) as [llm_data|e1] eqn:Hget.
  2:{ intros [= <- _]. by apply py_get_error in Hget as ->. }
  unfold bind at 1.
  destruct (LLMConfig_init llm_data h) as [[llm|e1] h1] eqn:Hllm.
  2:{ intros [= <- _]. by apply LLMConfig_init_construction_error in Hllm. }
  rewrite bind_lift.
  destruct (py_get data "ols_config" YNull) as [ols_data|e1] eqn:Hget'.
  2:{ intros [= <- _]. by apply py_get_error in Hget' as ->. }
  rewrite bind_lift. destruct (OLSConfig_init ols_data) as [ols|e1] eqn:Hols; [done|].
  intros [= <- _]. by apply OLSConfig_init_construction_error in Hols.
Qed.

(** ** [validate] on a constructed configuration *)

Lemma Config_init_providers_len (data : yaml) (h h' : heap) (c : Config)
    (llm : LLMConfig) :
  cls_ok h ->
  Config_init data h = (Ok c, h') ->
  llm_config c = Some llm ->
  providers_len h' llm <> 0.
Proof.
  intros Hcls Hinit Hllm.
  destruct (is_None data) eqn:Hnone.
  { unfold Config_init in Hinit. rewrite Hnone in Hinit.
    injection Hinit as <- <-. done. }
  destruct (Config_init_spec data h Hcls) as (r & h1 & Hrun & _ & Hr).
  rewrite Hinit in Hrun. injection Hrun as <- <-. destruct Hr as [Hden _].
  unfold Config_denote in Hden. rewrite Hnone in Hden.
  destruct (py_get data "llm_providers" YNull) as [llm_data|e]; [|done].
  cbn [result_bind] in Hden.
  pose proof (LLMConfig_denote_nonempty [] llm_data) as Hne.
  destruct (LLMConfig_denote [] [] llm_data) as [[[]|e] pd]; [|done].
  specialize (Hne tt eq_refl). cbn [snd] in Hne.
  destruct (py_get data "ols_config" YNull) as [ols_data|e]; [|done].
  cbn [result_bind] in Hden. destruct (OLSConfig_init ols_data); [|done].
  injection Hden as Hden _. rewrite Hllm in Hden.
  cbn [option_map] in Hden. injection Hden as Hpd.
  unfold providers_len. intros Hlen. apply Hne. rewrite Hpd.
  apply nil_length_inv in Hlen. by rewrite Hlen.
Qed.

Lemma OLSConfig_init_default_model (kvs : list (string * yaml)) (ols : OLSConfig) :
  OLSConfig_init (default YNull (assoc "ols_config" kvs)) = Ok ols ->
  ols_default_model ols = doc_default_model (YMap kvs).
Proof.
  unfold doc_default_model, OLSConfig_init.
  destruct (default YNull (assoc "ols_config" kvs)) as [| | | | |okvs]; try done.
  - by intros [= <-].
  - cbn [is_None py_get result_bind].
    destruct (ConversationCacheConfig_init _); [|done]. cbn [result_bind].
    destruct (LoggerConfig_init _); [|done]. by intros [= <-].
Qed.

(** X3.  What [validate] answers on the configuration that [Config(data)]
    has built: for the empty document, that there is no llm config; for a
    document without [ols_config.default_model], that the default model is
    not set; for every other document, that the classifier model is not
    set. *)
Theorem validate_after_Config_init (data : yaml) (h h' : heap) (c : Config) :
  cls_ok h ->
  Config_init data h = (Ok c, h') ->
  validate c h' =
  Raise (Exception
           (if is_None data then "no llm config found"
            else if is_None (doc_default_model data)
                 then "default model is not set"
                 else "classifier model is not set") None).
Proof.
  intros Hcls Hinit. destruct (is_None data) eqn:Hnone.
  { unfold Config_init in Hinit. rewrite Hnone in Hinit. by injection Hinit as <- <-. }
  destruct (Config_init_ok _ _ _ _ Hnone Hinit)
    as (llm & ols_data & ols & Hllm & Hols & Hget & Hbuild).
  pose proof (Config_init_providers_len _ _ _ _ _ Hcls Hinit Hllm) as Hlen.
  pose proof (OLSConfig_init_classifier_model _ _ Hbuild) as Hcl.
  destruct data as [| | | | |kvs]; try done.
  cbn [py_get] in Hget. injection Hget as <-.
  apply OLSConfig_init_default_model in Hbuild.
  unfold validate. rewrite Hllm, Hols, Hcl, Hbuild.
  destruct (Nat.eqb_spec (providers_len h' llm) 0); [done|].
  by destruct (is_None (doc_default_model (YMap kvs))).
Qed.

(** ** What a load leaves of the store *)

Lemma LLMConfig_providers_loop_frame (items : list yaml) :
  forall (ms : list (dict ModelConfig)) (ps : list (dict ProviderConfig))
         (pd : dict ProviderConfig),
    exists ds pd',
      snd (for_each items (LLMConfig_providers_body (length ps))
             (mkHeap ms (ps ++ [pd]))) =
      mkHeap (ms ++ ds) (ps ++ [pd']).
Proof.
  induction items as [|p items IH]; intros ms ps pd.
  - exists [], pd. by rewrite app_nil_r.
  - cbn [for_each]. unfold bind. rewrite LLMConfig_providers_body_spec.
    cbn [models_store providers_store].
    destruct (py_get p "name" YNull) as [name|e].
    2:{ exists [], pd. by rewrite app_nil_r. }
    destruct (is_None name). { exists [], pd. by rewrite app_nil_r. }
    set (d := snd (ProviderConfig_denote _ p)).
    destruct (fst (ProviderConfig_denote _ p)) as [[[n u] c]|e]; [|by exists [d], pd].
    destruct (py_getitem p "name") as [key|e]; [|by exists [d], pd].
    destruct (hashable key); [|by exists [d], pd].
    rewrite alter_last.
    destruct (IH (ms ++ [d]) ps
                (dict_setitem key (mkProviderConfig n u c (length ms)) pd))
      as (ds & pd' & ->).
    exists (d :: ds), pd'. by rewrite <- app_assoc.
Qed.

Lemma LLMConfig_init_frame (data : yaml) (h : heap) :
  heap_extends h (snd (LLMConfig_init data h)).
Proof.
  destruct h as [ms ps]. unfold LLMConfig_init. unfold bind at 1.
  unfold BaseModel_init_providers. cbn [models_store providers_store].
  set (pd := default [] (ps !! LLMConfig_providers)). rewrite bind_lift.
  destruct (LLMConfig_no_providers data) as [[|]|e].
  1,3:(exists [], [pd]; by rewrite app_nil_r).
  rewrite bind_lift. destruct (py_iter data) as [items|e].
  2:{ exists [], [pd]. by rewrite app_nil_r. }
  unfold bind.
  destruct (LLMConfig_providers_loop_frame items ms ps pd) as (ds & pd' & Hh).
  destruct (for_each items _ _) as [[[]|e] h1]; cbn [snd] in *; subst h1;
    by exists ds, [pd'].
Qed.

Lemma Config_init_frame (data : yaml) (h : heap) :
  heap_extends h (snd (Config_init data h)).
Proof.
  unfold Config_init. destruct (is_None data); [apply heap_extends_refl|].
  rewrite bind_lift.
  destruct (py_get data "llm_providers" YNull) as [llm_data|e];
    [|apply heap_extends_refl].
  unfold bind at 1. pose proof (LLMConfig_init_frame llm_data h) as Hllm.
  destruct (LLMConfig_init llm_data h) as [[llm|e] h1]; cbn [snd] in *; [|done].
  rewrite bind_lift. destruct (py_get data "ols_config" YNull); [|done].
  rewrite bind_lift. by destruct (OLSConfig_init _).
Qed.

Lemma load_config_frame (config_file : source) (h : heap) :
  heap_extends h (snd (load_config config_file h)).
Proof.
  unfold load_config. rewrite bind_lift.
  destruct (src_parse config_file) as [doc|e].
  - pose proof (Config_init_frame doc h) as Hf.
    destruct (Config_init doc h) as [[c|e] h']; [done|].
    by destruct (src_name config_file).
  - destruct (src_name config_file); apply heap_extends_refl.
Qed.

(** X4.  A load, whether it returns, exits or raises, and whatever the
    store holds, only allocates dictionaries: every dictionary of the store
    is the same after the load, so the class-level defaults are not
    mutated and a configuration returned earlier reads as before. *)
Theorem load_config_keeps_store (config_file : source) (h : heap) :
  (forall l d, models_store h !! l = Some d ->
               models_store (snd (load_config config_file h)) !! l = Some d) /\
  (forall l d, providers_store h !! l = Some d ->
               providers_store (snd (load_config config_file h)) !! l = Some d) /\
  (forall c, config_ok h c ->
             config_view (snd (load_config config_file h)) c = config_view h c).
Proof.
  pose proof (load_config_frame config_file h) as Hext.
  split; [|split].
  - destruct Hext as (ds & pds & -> & _). intros l d. apply lookup_app_l_Some.
  - destruct Hext as (ds & pds & _ & ->). intros l d. apply lookup_app_l_Some.
  - intros c Hok. by apply config_view_extends.
Qed.

(** ** The conversation cache that is built *)

(** X5.  [ConversationCacheConfig(data)] returns exactly for the sections
    of [valid_conversation_cache].  In what it returns, [redis] is set
    exactly when [type] is ["redis"] and [memory] exactly when [type] is
    ["memory"], so never both; a block that [type] does not name is not
    read. *)
Theorem ConversationCacheConfig_init_sub_config (data : yaml) :
  is_ok (ConversationCacheConfig_init data) = valid_conversation_cache data /\
  forall cc,
    ConversationCacheConfig_init data = Ok cc ->
    (cc_redis cc <> None <-> cc_type cc = YStr "redis") /\
    (cc_memory cc <> None <-> cc_type cc = YStr "memory") /\
    (cc_redis cc = None \/ cc_memory cc = None).
Proof.
  split; [apply ConversationCacheConfig_init_is_ok|].
  unfold ConversationCacheConfig_init.
  destruct data as [| | | | |kvs]; try done.
  { intros cc [= <-]. cbn. intuition congruence. }
  cbn [is_None py_get result_bind].
  destruct (default YNull (assoc "type" kvs)) as [| | |s| |] eqn:Htype;
    cbn [eq_str]; try (intros cc [= <-]; cbn; intuition congruence).
  destruct (String.eqb_spec s "redis") as [->|Hr].
  { destruct (is_None _); [done|]. destruct (RedisConfig_init _); [|done].
    intros cc [= <-]. cbn. intuition congruence. }
  destruct (String.eqb_spec s "memory") as [->|Hm].
  { destruct (is_None _); [done|]. destruct (MemoryConfig_init _); [|done].
    intros cc [= <-]. cbn. intuition congruence. }
  intros cc [= <-]. cbn. intuition congruence.
Qed.

(** ** Every entry is filed under its own name *)








(** ** The order of the providers *)

Lemma dict_setitem_fresh {V} (s : string) (v : V) (d : dict V) :
  ~ In (YStr s) (dict_keys d) ->
  dict_setitem (YStr s) v d = d ++ [(YStr s, v)].
Proof.
  induction d as [|[k' v'] d IH]; cbn [dict_setitem dict_keys map fst In app];
    [done|].
  intros Hnot. destruct (key_eqb k' (YStr s)) eqn:E.
  - apply key_eqb_str in E. tauto.
  - f_equal. apply IH. tauto.
Qed.

Lemma dict_fill_keys_in_order {V} (entry : yaml -> result (yaml * V))
    (items : list yaml) (d : dict V) :
  Forall (keyed_by_name entry) items ->
  List.NoDup (dict_keys d ++ entry_names items) ->
  dict_keys (snd (dict_fill entry items d)) = dict_keys d ++ entry_names items.
Proof.
  intros H. revert d.
  induction H as [|x items (s & v & Hs & Hx) _ IH]; intros d Hnodup.
  - cbn. by rewrite app_nil_r.
  - rewrite entry_names_cons, Hs in *. cbn [dict_fill]. rewrite Hx.
    assert (~ In (YStr s) (dict_keys d)) as Hfresh.
    { apply List.NoDup_remove_2 in Hnodup. intros Hin. apply Hnodup.
      apply in_or_app. by left. }
    rewrite dict_setitem_fresh by done.
    rewrite IH.
    + unfold dict_keys. rewrite map_app. cbn [map fst]. by rewrite <- app_assoc.
    + unfold dict_keys. rewrite map_app. cbn [map fst]. by rewrite <- app_assoc.
Qed.

(** X7.  For a document that follows the schema and whose providers have
    different names, the keys of the resulting [llm_config.providers] are
    the names of the provider entries, in the order of the document. *)
Theorem load_config_provider_order (config_file : source) (doc : yaml) (h : heap) :
  cls_ok h ->
  src_parse config_file = Ok doc ->
  valid_doc doc = true ->
  List.NoDup (entry_names (provider_entries doc)) ->
  exists c llm pd h',
    load_config config_file h = (Returned c, [], h') /\
    llm_config c = Some llm /\
    providers_store h' !! llm_providers llm = Some pd /\
    dict_keys pd = entry_names (provider_entries doc).
Proof.
  intros Hcls Hdoc Hvalid Hnodup.
  destruct (Config_denote_valid doc Hvalid) as (ols & Hden & Hkeyed).
  destruct (Config_init_spec doc h Hcls) as (r & h' & Hrun & _ & Hr).
  destruct r as [c|e]; [|congruence].
  destruct Hr as [Hview Hok]. rewrite Hden in Hview.
  injection Hview as Hprov Hols.
  unfold config_ok in Hok.
  destruct (llm_config c) as [llm|] eqn:Hllm; [|done].
  destruct Hok as (pd & Hpd & _).
  exists c, llm, pd, h'. split; [by apply (load_config_ok _ doc)|].
  split; [done|]. split; [done|].
  cbn [option_map] in Hprov. injection Hprov as Hprov.
  rewrite Hpd in Hprov. cbn [from_option id] in Hprov.
  rewrite <- (dict_keys_providers_view (models_store h') pd), <- Hprov.
  by rewrite dict_fill_keys_in_order.
Qed.

(** ** The first entry that fails *)

Lemma LLMConfig_denote_list (items : list yaml) :
  items <> [] ->
  LLMConfig_denote [] [] (YList items) = dict_fill (provider_entry []) items [].
Proof.
  intros Hne. unfold LLMConfig_denote, LLMConfig_no_providers.
  cbn [is_None py_len py_iter result_bind]. by destruct items.
Qed.

(** The list of providers fails with the exception of its first entry that
    cannot be constructed. *)
Lemma LLMConfig_init_first_failure (pre post : list yaml) (x : yaml) (h : heap)
    (e : error) :
  cls_ok h ->
  forallb constructible_provider pre = true ->
  provider_entry [] x = Raise e ->
  fst (LLMConfig_init (YList (pre ++ x :: post)) h) = Raise e.
Proof.
  intros Hcls Hpre Hx.
  destruct (LLMConfig_init_spec (YList (pre ++ x :: post)) h Hcls)
    as (ds & pd & -> & _ & _).
  rewrite LLMConfig_denote_list by apply app_cons_nonempty.
  rewrite dict_fill_app.
  pose proof (dict_fill_is_ok (provider_entry []) pre []) as Hok.
  rewrite (forallb_eq _ constructible_provider _ (provider_entry_is_ok [])),
    Hpre in Hok.
  destruct (dict_fill (provider_entry []) pre []) as [[[]|e1] d1]; [|done].
  cbn [dict_fill fst]. by rewrite Hx.
Qed.

(** A provider fails with the exception of its first model that cannot be
    constructed. *)
Lemma provider_entry_first_failure (kvs : list (string * yaml))
    (mpre mpost : list yaml) (m : yaml) (e : error) :
  is_None (default YNull (assoc "name" kvs)) = false ->
  assoc "models" kvs = Some (YList (mpre ++ m :: mpost)) ->
  forallb constructible_model mpre = true ->
  model_entry m = Raise e ->
  provider_entry [] (YMap kvs) = Raise e.
Proof.
  intros Hname Hms Hpre Hm.
  unfold provider_entry, ProviderConfig_view, ProviderConfig_denote.
  cbn [py_get result_bind is_None]. rewrite Hname.
  rewrite (ProviderConfig_head_models kvs _ Hms) by apply app_cons_nonempty.
  rewrite dict_fill_app.
  pose proof (dict_fill_is_ok model_entry mpre []) as Hok.
  rewrite (forallb_eq _ constructible_model _ model_entry_is_ok), Hpre in Hok.
  destruct (dict_fill model_entry mpre []) as [[[]|e1] d1]; [|done].
  cbn [dict_fill]. by rewrite Hm.
Qed.

Lemma provider_entry_no_models (kvs : list (string * yaml)) (name : yaml) :
  assoc "name" kvs = Some name ->
  is_None name = false ->
  no_items (default YNull (assoc "models" kvs)) = true ->
  provider_entry [] (YMap kvs) =
  Raise (Exception "no models configured for provider " (Some name)).
Proof.
  intros Hname Hnone Hno.
  unfold provider_entry, ProviderConfig_view, ProviderConfig_denote,
    ProviderConfig_head, ProviderConfig_no_models.
  cbn [py_get py_getitem result_bind is_None]. rewrite Hname.
  cbn [from_option id]. rewrite Hnone.
  destruct (assoc "models" kvs) as [[| | |[|a s]|[|m ms]|[|kv kvs']]|]; done.
Qed.

(** X8.  An entry of the list of providers, or of the list of models of a
    provider, that is not a mapping (a string, a number, a null, a list)
    makes the construction fail with [AttributeError], when the entries
    before it can be constructed; and so does [llm_providers] given as a
    mapping rather than a list. *)
Theorem non_mapping_entry_fails :
  (forall (h : heap) (pre post : list yaml) (x : yaml),
     cls_ok h ->
     forallb constructible_provider pre = true ->
     is_mapping x = false ->
     fst (LLMConfig_init (YList (pre ++ x :: post)) h) =
     Raise (AttributeError "get")) /\
  (forall (h : heap) (pre post : list yaml) (kvs : list (string * yaml))
          (mpre mpost : list yaml) (m : yaml),
     cls_ok h ->
     forallb constructible_provider pre = true ->
     is_None (default YNull (assoc "name" kvs)) = false ->
     assoc "models" kvs = Some (YList (mpre ++ m :: mpost)) ->
     forallb constructible_model mpre = true ->
     is_mapping m = false ->
     fst (LLMConfig_init (YList (pre ++ YMap kvs :: post)) h) =
     Raise (AttributeError "get")) /\
  (forall (h : heap) (kv : string * yaml) (kvs : list (string * yaml)),
     cls_ok h ->
     fst (LLMConfig_init (YMap (kv :: kvs)) h) = Raise (AttributeError "get")).
Proof.
  split; [|split].
  - intros h pre post x Hcls Hpre Hx.
    apply LLMConfig_init_first_failure; [done|done|]. by destruct x.
  - intros h pre post kvs mpre mpost m Hcls Hpre Hname Hms Hmpre Hm.
    apply LLMConfig_init_first_failure; [done|done|].
    apply (provider_entry_first_failure kvs mpre mpost m); [done|done|done|].
    by destruct m.
  - intros h kv kvs Hcls.
    destruct (LLMConfig_init_spec (YMap (kv :: kvs)) h Hcls) as (ds & pd & -> & _ & _).
    done.
Qed.

(** X9.  A provider whose [models] is absent, null or empty makes the
    construction fail, when the providers before it can be constructed,
    with the message on missing models that carries the name of that
    provider.  Called on a mapping with no [models] and no [name],
    [ProviderConfig] raises [KeyError] instead: formatting the message
    subscripts [data['name']]. *)
Theorem provider_without_models_fails :
  (forall (h : heap) (pre post : list yaml) (kvs : list (string * yaml))
          (name : yaml),
     cls_ok h ->
     forallb constructible_provider pre = true ->
     assoc "name" kvs = Some name ->
     is_None name = false ->
     no_items (default YNull (assoc "models" kvs)) = true ->
     fst (LLMConfig_init (YList (pre ++ YMap kvs :: post)) h) =
     Raise (Exception "no models configured for provider " (Some name))) /\
  (forall (h : heap) (kvs : list (string * yaml)),
     assoc "name" kvs = None ->
     no_items (default YNull (assoc "models" kvs)) = true ->
     fst (ProviderConfig_init (YMap kvs) h) = Raise (KeyError "name")).
Proof.
  split.
  - intros h pre post kvs name Hcls Hpre Hname Hnone Hno.
    apply LLMConfig_init_first_failure; [done|done|].
    by apply provider_entry_no_models.
  - intros h kvs Hname Hno. rewrite ProviderConfig_init_spec. cbn zeta. cbn [fst].
    unfold ProviderConfig_denote, ProviderConfig_head, ProviderConfig_no_models.
    cbn [py_get py_getitem result_bind is_None]. rewrite Hname.
    destruct (assoc "models" kvs) as [[| | |[|a s]|[|m ms]|[|kv kvs']]|]; done.
Qed.

(** X10.  A name that is a list or a mapping makes the construction fail
    with the [TypeError] of an unhashable key: for a provider, after its
    models have been constructed; for a model, in the loop of its
    provider. *)
Theorem unhashable_name_fails :
  (forall (h : heap) (pre post : list yaml) (kvs : list (string * yaml))
          (m : yaml) (ms : list yaml),
     cls_ok h ->
     forallb constructible_provider pre = true ->
     hashable (default YNull (assoc "name" kvs)) = false ->
     assoc "models" kvs = Some (YList (m :: ms)) ->
     forallb constructible_model (m :: ms) = true ->
     fst (LLMConfig_init (YList (pre ++ YMap kvs :: post)) h) =
     Raise (TypeError "unhashable type")) /\
  (forall (h : heap) (pre post : list yaml) (kvs mkvs : list (string * yaml))
          (mpre mpost : list yaml),
     cls_ok h ->
     forallb constructible_provider pre = true ->
     is_None (default YNull (assoc "name" kvs)) = false ->
     assoc "models" kvs = Some (YList (mpre ++ YMap mkvs :: mpost)) ->
     forallb constructible_model mpre = true ->
     hashable (default YNull (assoc "name" mkvs)) = false ->
     fst (LLMConfig_init (YList (pre ++ YMap kvs :: post)) h) =
     Raise (TypeError "unhashable type")).
Proof.
  split.
  - intros h pre post kvs m ms Hcls Hpre Hname Hms Hmodels.
    apply LLMConfig_init_first_failure; [done|done|].
    unfold provider_entry, ProviderConfig_view, ProviderConfig_denote.
    cbn [py_get py_getitem result_bind is_None].
    destruct (assoc "name" kvs) as [name|]; cbn [from_option id] in *; [|done].
    destruct name; try done; cbn [is_None].
    + rewrite (ProviderConfig_head_models kvs _ Hms) by done.
      pose proof (dict_fill_is_ok model_entry (m :: ms) []) as Hok.
      rewrite (forallb_eq _ constructible_model _ model_entry_is_ok), Hmodels in Hok.
      by destruct (dict_fill model_entry (m :: ms) []) as [[[]|e1] d1].
    + rewrite (ProviderConfig_head_models kvs _ Hms) by done.
      pose proof (dict_fill_is_ok model_entry (m :: ms) []) as Hok.
      rewrite (forallb_eq _ constructible_model _ model_entry_is_ok), Hmodels in Hok.
      by destruct (dict_fill model_entry (m :: ms) []) as [[[]|e1] d1].
  - intros h pre post kvs mkvs mpre mpost Hcls Hpre Hname Hms Hmpre Hm.
    apply LLMConfig_init_first_failure; [done|done|].
    apply (provider_entry_first_failure kvs mpre mpost (YMap mkvs)); [done..|].
    unfold model_entry, ModelConfig_init.
    cbn [py_get py_getitem result_bind is_None].
    destruct (assoc "name" mkvs) as [name|]; cbn [from_option id] in *; [|done].
    by destruct name.
Qed.

(** X11.  A document that is a mapping and whose [llm_providers] is absent,
    null or empty is rejected with the message that no llm providers are
    configured, whatever its [ols_config] section holds. *)
Theorem no_providers_fails (kvs : list (string * yaml)) (h : heap) :
  no_items (default YNull (assoc "llm_providers" kvs)) = true ->
  fst (Config_init (YMap kvs) h) =
  Raise (Exception "no llm providers configured" None).
Proof.
  intros Hno. unfold Config_init. cbn [is_None]. rewrite bind_lift.
  cbn [py_get]. unfold bind at 1. unfold LLMConfig_init. unfold bind at 1.
  unfold BaseModel_init_providers. rewrite bind_lift.
  unfold LLMConfig_no_providers.
  destruct (default YNull (assoc "llm_providers" kvs))
    as [| | |[|a s]|[|m ms]|[|kv kvs']]; done.
Qed.

(** ** The defaults read from the environment *)

Ltac ascii_cases c :=
  destruct c as [[] [] [] [] [] [] [] []]; vm_compute;
  (split;
   [ intros H; first [discriminate H | left; reflexivity | right; reflexivity]
   | intros [H|H]; first [discriminate H | reflexivity] ]).

Lemma ascii_lower_t (c : ascii) :
  ascii_lower c = "t"%char <-> c = "t"%char \/ c = "T"%char.
Proof. ascii_cases c. Qed.

Lemma ascii_lower_r (c : ascii) :
  ascii_lower c = "r"%char <-> c = "r"%char \/ c = "R"%char.
Proof. ascii_cases c. Qed.

Lemma ascii_lower_u (c : ascii) :
  ascii_lower c = "u"%char <-> c = "u"%char \/ c = "U"%char.
Proof. ascii_cases c. Qed.

Lemma ascii_lower_e (c : ascii) :
  ascii_lower c = "e"%char <-> c = "e"%char \/ c = "E"%char.
Proof. ascii_cases c. Qed.

Lemma str_lower_true (v : string) :
  str_lower v = "true" <->
  exists c1 c2 c3 c4,
    v = String c1 (String c2 (String c3 (String c4 EmptyString))) /\
    (c1 = "t"%char \/ c1 = "T"%char) /\ (c2 = "r"%char \/ c2 = "R"%char) /\
    (c3 = "u"%char \/ c3 = "U"%char) /\ (c4 = "e"%char \/ c4 = "E"%char).
Proof.
  split.
  - destruct v as [|c1 [|c2 [|c3 [|c4 [|c5 v]]]]]; cbn [str_lower]; try done.
    intros [= H1 H2 H3 H4]. exists c1, c2, c3, c4.
    rewrite <- ascii_lower_t, <- ascii_lower_r, <- ascii_lower_u, <- ascii_lower_e.
    done.
  - intros (c1 & c2 & c3 & c4 & -> & H1 & H2 & H3 & H4). cbn [str_lower].
    apply ascii_lower_t in H1. apply ascii_lower_r in H2.
    apply ascii_lower_u in H3. apply ascii_lower_e in H4.
    by rewrite H1, H2, H3, H4.
Qed.

(** X12.  [set_defaults] enables the local UI exactly when [OLS_ENABLE_UI]
    is unset or is the word [true] in any mix of upper and lower case; every
    other value, the empty string among them, disables it. *)
Theorem set_defaults_enable_ui (env : environ) :
  enable_ui (set_defaults env) = true <->
  env "OLS_ENABLE_UI" = None \/
  exists c1 c2 c3 c4,
    env "OLS_ENABLE_UI" =
    Some (String c1 (String c2 (String c3 (String c4 EmptyString)))) /\
    (c1 = "t"%char \/ c1 = "T"%char) /\ (c2 = "r"%char \/ c2 = "R"%char) /\
    (c3 = "u"%char \/ c3 = "U"%char) /\ (c4 = "e"%char \/ c4 = "E"%char).
Proof.
  unfold set_defaults, os_getenv. cbn [enable_ui].
  destruct (env "OLS_ENABLE_UI") as [v|]; cbn [from_option id].
  - destruct (String.eqb_spec (str_lower v) "true") as [Hv|Hv].
    + split; [|done]. intros _. right. apply str_lower_true in Hv.
      destruct Hv as (c1 & c2 & c3 & c4 & -> & H). by exists c1, c2, c3, c4.
    + split; [done|]. intros [|(c1 & c2 & c3 & c4 & [= ->] & H)]; [done|].
      exfalso. apply Hv. apply str_lower_true. by exists c1, c2, c3, c4.
  - split; [by left|]. intros _. reflexivity.
Qed.

(** ** The further properties on the example documents *)

Lemma load_config_accepts_witness :
  cls_ok heap0 /\
  exists c h',
    load_config (path_object (Ok doc_two_providers)) heap0 = (Returned c, [], h').
Proof.
  split; [split; reflexivity|].
  apply (proj2 (load_config_accepts (path_object (Ok doc_two_providers)) heap0
                  (conj eq_refl eq_refl))).
  exists doc_two_providers. split; reflexivity.
Defined.

Lemma Config_init_raises_witness :
  construction_error (Exception "no llm providers configured" None) = true.
Proof.
  exact (Config_init_raises doc_no_providers heap0 _ _ eq_refl).
Defined.

Lemma validate_after_Config_init_witness :
  exists c h',
    Config_init doc_full heap0 = (Ok c, h') /\
    validate c h' = Raise (Exception "classifier model is not set" None).
Proof.
  eexists _, _. split; [reflexivity|].
  exact (validate_after_Config_init doc_full heap0 _ _
           (conj eq_refl eq_refl) eq_refl).
Defined.

Lemma load_config_keeps_store_witness :
  models_store (snd (load_config (path_object (Ok doc_full)) heap0))
    !! ProviderConfig_models = Some [] /\
  providers_store (snd (load_config (path_object (Ok doc_full)) heap0))
    !! LLMConfig_providers = Some [].
Proof.
  destruct (load_config_keeps_store (path_object (Ok doc_full)) heap0)
    as (Hmodels & Hproviders & _).
  split.
  - exact (Hmodels ProviderConfig_models [] eq_refl).
  - exact (Hproviders LLMConfig_providers [] eq_refl).
Defined.

Lemma ConversationCacheConfig_init_sub_config_witness :
  exists cc,
    ConversationCacheConfig_init cache_memory_with_redis = Ok cc /\
    (cc_memory cc <> None <-> cc_type cc = YStr "memory") /\
    (cc_redis cc = None \/ cc_memory cc = None).
Proof.
  eexists. split; [reflexivity|].
  exact (proj2 (proj2 (ConversationCacheConfig_init_sub_config
                         cache_memory_with_redis) _ eq_refl)).
Defined.


Lemma load_config_provider_order_witness :
  exists c llm pd h',
    load_config (path_object (Ok doc_two_providers)) heap0 = (Returned c, [], h') /\
    llm_config c = Some llm /\
    providers_store h' !! llm_providers llm = Some pd /\
    dict_keys pd = [YStr "openai"; YStr "watsonx"].
Proof.
  apply (load_config_provider_order (path_object (Ok doc_two_providers))
           doc_two_providers heap0);
    [split; reflexivity|reflexivity|reflexivity|].
  vm_compute. constructor.
  - intros [H|[]]. discriminate H.
  - constructor; [intros []|constructor].
Defined.

Lemma non_mapping_entry_fails_witness :
  fst (LLMConfig_init (YList [provider_openai_a; YStr "watsonx"]) heap0) =
  Raise (AttributeError "get") /\
  fst (LLMConfig_init (YList [YMap provider_model_string]) heap0) =
  Raise (AttributeError "get") /\
  fst (LLMConfig_init (YMap [("openai", provider_openai_a)]) heap0) =
  Raise (AttributeError "get").
Proof.
  destruct non_mapping_entry_fails as (Hentry & Hmodel & Hmapping).
  split; [|split].
  - exact (Hentry heap0 [provider_openai_a] [] (YStr "watsonx")
             (conj eq_refl eq_refl) eq_refl eq_refl).
  - exact (Hmodel heap0 [] [] provider_model_string [model_gpt3] []
             (YStr "gpt-4") (conj eq_refl eq_refl) eq_refl eq_refl eq_refl
             eq_refl eq_refl).
  - exact (Hmapping heap0 ("openai", provider_openai_a) []
             (conj eq_refl eq_refl)).
Defined.

Lemma provider_without_models_fails_witness :
  fst (LLMConfig_init
         (YList [provider_openai_a; provider_no_models; provider_watsonx]) heap0) =
  Raise (Exception "no models configured for provider " (Some (YStr "a"))) /\
  fst (ProviderConfig_init (YMap [("url", YStr "x")]) heap0) =
  Raise (KeyError "name").
Proof.
  destruct provider_without_models_fails as (Hload & Hdirect). split.
  - exact (Hload heap0 [provider_openai_a] [provider_watsonx]
             [("name", YStr "a")] (YStr "a") (conj eq_refl eq_refl)
             eq_refl eq_refl eq_refl eq_refl).
  - exact (Hdirect heap0 [("url", YStr "x")] eq_refl eq_refl).
Defined.

Lemma unhashable_name_fails_witness :
  fst (LLMConfig_init (YList [YMap provider_list_name]) heap0) =
  Raise (TypeError "unhashable type") /\
  fst (LLMConfig_init (YList [YMap provider_model_list_name]) heap0) =
  Raise (TypeError "unhashable type").
Proof.
  destruct unhashable_name_fails as (Hprovider & Hmodel). split.
  - exact (Hprovider heap0 [] [] provider_list_name model_gpt3 []
             (conj eq_refl eq_refl) eq_refl eq_refl eq_refl eq_refl).
  - exact (Hmodel heap0 [] [] provider_model_list_name
             [("name", YList [YStr "a"])] [model_gpt3] []
             (conj eq_refl eq_refl) eq_refl eq_refl eq_refl eq_refl eq_refl).
Defined.

Lemma no_providers_fails_witness :
  fst (Config_init (YMap [("ols_config", YStr "oops")]) heap0) =
  Raise (Exception "no llm providers configured" None).
Proof.
  exact (no_providers_fails [("ols_config", YStr "oops")] heap0 eq_refl).
Defined.

Lemma set_defaults_enable_ui_witness :
  enable_ui (set_defaults env_ui_upper) = true.
Proof.
  apply (proj2 (set_defaults_enable_ui env_ui_upper)). right.
  exists "T"%char, "R"%char, "U"%char, "E"%char.
  split; [reflexivity|]. repeat split; right; reflexivity.
Defined.
